(** * Batch LLM inference example: the callbacks and the driver script

    A shallow embedding of [examples/offline_inference/batch_llm_inference.py].

    The file has three parts.
    - [Python]: the fragment of Python's object model the script uses:
      immutable constants, list and dict objects living in a store,
      exceptions, and the operations [row["k"]], dict and list displays and
      the call of [dict] with keyword arguments and an unpacked mapping.
    - [Callbacks]: the two lambdas handed to [build_llm_processor].
    - [Script]: the statements of the module's top level, run against an
      interface for the dataset runtime, with the trace of the calls made. *)

From Stdlib Require Import ZArith.
From Stdlib Require Floats.SpecFloat.
From stdpp Require Import gmap strings list fin_maps.

Local Open Scope string_scope.

(** ** Part 1: the Python fragment *)

Module Python.

(** A binary64 float, as sign, mantissa and exponent: [m * 2^e]. *)
Definition float := SpecFloat.spec_float.

(** Object identity: the address of a container object. *)
Definition loc := positive.

(** What a variable, a list element or a dict slot holds.  Constants are
    immutable and are held by value; lists and dicts are held by reference. *)
Inductive val : Type :=
| PNone
| PBool (b : bool)
| PInt (z : Z)
| PFloat (f : float)
| PStr (s : string)
| PRef (l : loc).

(** The container objects.  Rows of a dataset and keyword dictionaries are
    keyed by column or parameter names, so keys are strings. *)
Inductive obj : Type :=
| OList (items : list val)
| ODict (d : gmap string val).

Abbreviation heap := (gmap loc obj).

(** Causes of a [TypeError] raised by the operations below. *)
Inductive type_error : Type :=
| NotSubscriptable          (* [x[k]] on None, a bool, an int or a float *)
| BadIndex                  (* [x["k"]] on a str or a list *)
| NotAMapping               (* unpacking [x] as keywords where [x] is not a dict *)
| DuplicateKeyword (k : string). (* keyword [k] given and also a key of the unpacked dict *)

Inductive exn : Type :=
| KeyError (key : string)
| TypeError (cause : type_error)
| AssertionError (msg : string)
| NameError (name : string)
| ImportError (module : string)  (* a module, or a name of it, that cannot be imported *)
| InvalidVersion (s : string)    (* [Version(s)] on a string that is no version *)
| SystemError                (* a reference to no object: never in a well-formed store *)
| RuntimeFault (msg : string). (* a failure surfaced by the external runtime *)

Inductive result (A : Type) : Type :=
| Ok (a : A)
| Raise (e : exn).
Arguments Ok {A} a.
Arguments Raise {A} e.

#[global] Instance result_ret : MRet result := λ A a, Ok a.
#[global] Instance result_bind : MBind result := λ A B f r,
  match r with
  | Ok a => f a
  | Raise e => Raise e
  end.

(** Expressions are evaluated in a store; an exception leaves the store as
    it was when it was raised. *)
Definition Py (A : Type) : Type := heap → result A * heap.

#[global] Instance Py_ret : MRet Py := λ A a h, (Ok a, h).
#[global] Instance Py_bind : MBind Py := λ A B f m h,
  match m h with
  | (Ok a, h') => f a h'
  | (Raise e, h') => (Raise e, h')
  end.

Definition raise {A} (e : exn) : Py A := λ h, (Raise e, h).

(** A new object gets an address no object of the store has. *)
Definition alloc (o : obj) : Py val := λ h,
  let l := fresh (dom h) in (Ok (PRef l), <[l := o]> h).

(** [d[k]] on a dict. *)
Definition dict_getitem {A} (d : gmap string A) (k : string) : result A :=
  match d !! k with
  | Some x => Ok x
  | None => Raise (KeyError k)
  end.

(** [x[k]] for a string constant [k]. *)
Definition getitem (x : val) (k : string) : Py val := λ h,
  match x with
  | PRef l =>
      match h !! l with
      | Some (ODict d) => (dict_getitem d k, h)
      | Some (OList _) => (Raise (TypeError BadIndex), h)
      | None => (Raise SystemError, h)
      end
  | PStr _ => (Raise (TypeError BadIndex), h)
  | _ => (Raise (TypeError NotSubscriptable), h)
  end.

(** Items entered one after the other, a later one replacing an earlier one
    with the same key. *)
Definition build_map (items : list (string * val)) : gmap string val :=
  foldl (λ m kv, <[kv.1 := kv.2]> m) ∅ items.

(** The display [{k1: v1, ..., kn: vn}]. *)
Definition dict_display (items : list (string * val)) : Py val :=
  alloc (ODict (build_map items)).

(** The display [[v1, ..., vn]]. *)
Definition list_display (items : list val) : Py val :=
  alloc (OList items).

(** A keyword that the unpacked mapping also has: the first such among the
    explicit keywords.  (CPython names the first one in the mapping's own
    order; with one explicit keyword, as in this script, they are the same.) *)
Definition duplicate_keyword (kwargs : list (string * val)) (d : gmap string val)
  : option string :=
  (λ p, p.2.1) <$> list_find (λ kv, is_Some (d !! kv.1)) kwargs.

(** The call [dict(k1=v1, ..., kn=vn)] ([star = None]), or the same call
    with a mapping [x] unpacked after the keywords ([star = Some x]).  The
    keyword arguments are collected first; merging the unpacked mapping into
    them refuses a key that is already there.  The new dict holds the same
    values (the same objects) as the mapping: a shallow copy. *)
Definition dict_call (kwargs : list (string * val)) (star : option val) : Py val :=
  match star with
  | None => alloc (ODict (build_map kwargs))
  | Some (PRef l) => λ h,
      match h !! l with
      | Some (ODict d) =>
          match duplicate_keyword kwargs d with
          | Some k => (Raise (TypeError (DuplicateKeyword k)), h)
          | None => alloc (ODict (build_map kwargs ∪ d)) h
          end
      | Some (OList _) => (Raise (TypeError NotAMapping), h)
      | None => (Raise SystemError, h)
      end
  | Some _ => raise (TypeError NotAMapping)
  end.

(** *** Structure of an object

    What one reads by following references from a value, all the way down.
    Two values, possibly in two stores, are structurally identical when they
    read the same. *)
#[warnings="-register-all"]
Inductive value : Type :=
| VNone
| VBool (b : bool)
| VInt (z : Z)
| VFloat (f : float)
| VStr (s : string)
| VList (items : list value)
| VDict (d : gmap string value).

Definition traverse_map {A B} (f : A → option B) (d : gmap string A)
  : option (gmap string B) :=
  if decide (map_Forall (λ _ x, is_Some (f x)) d) then Some (omap f d) else None.

(** [snapshot n h x] follows at most [n] references; it is [None] on a
    deeper (or cyclic) structure and on a reference to no object. *)
Fixpoint snapshot (n : nat) (h : heap) (x : val) : option value :=
  match x with
  | PNone => Some VNone
  | PBool b => Some (VBool b)
  | PInt z => Some (VInt z)
  | PFloat f => Some (VFloat f)
  | PStr s => Some (VStr s)
  | PRef l =>
      match n with
      | O => None
      | S n' =>
          match h !! l with
          | Some (OList items) => VList <$> mapM (snapshot n' h) items
          | Some (ODict d) => VDict <$> traverse_map (snapshot n' h) d
          | None => None
          end
      end
  end.

(** An expression only adds objects to the store: those that were there
    are as they were. *)
Definition frame {A} (m : Py A) : Prop := ∀ h, h ⊆ (m h).2.

(** Distinct addresses that no object of the store has. *)
Definition fresh_in (h : heap) (ls : list loc) : Prop :=
  NoDup ls ∧ Forall (λ i, h !! i = None) ls.

(** The float that the decimal literal [num/den] denotes: the positive
    binary64 number [m * 2^e], with a full 53-bit mantissa, within half a
    unit in the last place of [num/den]. *)
Definition is_nearest_binary64 (num den : Z) (f : float) : Prop :=
  match f with
  | SpecFloat.S754_finite false m e =>
      (2 ^ 52 ≤ Z.pos m < 2 ^ 53)%Z ∧ (e < 0)%Z ∧
      (2 * Z.abs (num * 2 ^ (- e) - Z.pos m * den) ≤ den)%Z
  | _ => False
  end.

(** What a run of an expression shows to an observer who compares
    structures: the exception, or the structure of the value. *)
Definition observe (n : nat) (r : result val * heap) : option (result value) :=
  match r with
  | (Ok x, h) => Ok <$> snapshot n h x
  | (Raise e, _) => Some (Raise e)
  end.

End Python.

(** ** Part 2: the callbacks of the processor *)

Module Callbacks.
Import Python.

(** The literal [0.3]: the binary64 number nearest to 3/10,
    [5404319552844595 * 2^-54] (bit pattern 0x3FD3333333333333). *)
Definition temperature : float :=
  SpecFloat.S754_finite false 5404319552844595 (-54).

Definition max_tokens : Z := 250.

Definition system_prompt : string := "You are a bot that responds with haikus.".

(** [[
    preprocess=lambda row: dict(
        messages=[
            {"role": "system", "content": "You are a bot that responds with haikus."},
            {"role": "user", "content": row["text"]},
        ],
        sampling_params=dict(
            temperature=0.3,
            max_tokens=250,
        ),
    )
    ]]
    Arguments are evaluated from left to right: the system message is built
    before [row["text"]] is looked up. *)
Definition preprocess (row : val) : Py val :=
  system_message ← dict_display [("role", PStr "system"); ("content", PStr system_prompt)];
  text ← getitem row "text";
  user_message ← dict_display [("role", PStr "user"); ("content", text)];
  messages ← list_display [system_message; user_message];
  sampling_params ← dict_call [("temperature", PFloat temperature);
                               ("max_tokens", PInt max_tokens)] None;
  dict_call [("messages", messages); ("sampling_params", sampling_params)] None.

(** [[
    postprocess=lambda row: dict(
        answer=row["generated_text"],
        **row,  # This will return all the original columns in the dataset.
    )
    ]] *)
Definition postprocess (row : val) : Py val :=
  answer ← getitem row "generated_text";
  dict_call [("answer", answer)] (Some row).

(** The structure of what [preprocess] yields, as a function of the
    structure of the row it is given. *)
Definition request_structure (row : value) : result value :=
  match row with
  | VDict d =>
      match d !! "text" with
      | Some text =>
          Ok (VDict {[
            "messages" := VList [
              VDict {[ "role" := VStr "system"; "content" := VStr system_prompt ]};
              VDict {[ "role" := VStr "user"; "content" := text ]} ];
            "sampling_params" := VDict {[
              "temperature" := VFloat temperature;
              "max_tokens" := VInt max_tokens ]} ]})
      | None => Raise (KeyError "text")
      end
  | VList _ | VStr _ => Raise (TypeError BadIndex)
  | VNone | VBool _ | VInt _ | VFloat _ => Raise (TypeError NotSubscriptable)
  end.

(** The store after a call of [preprocess] that returns: the five objects
    it builds, in the order it builds them, at addresses [l1] to [l5]. *)
Definition request_heap (h : heap) (text : val) (l1 l2 l3 l4 l5 : loc) : heap :=
  <[l5 := ODict {[ "messages" := PRef l3; "sampling_params" := PRef l4 ]}]>
  (<[l4 := ODict {[ "temperature" := PFloat temperature;
                    "max_tokens" := PInt max_tokens ]}]>
  (<[l3 := OList [PRef l1; PRef l2]]>
  (<[l2 := ODict {[ "role" := PStr "user"; "content" := text ]}]>
  (<[l1 := ODict {[ "role" := PStr "system"; "content" := PStr system_prompt ]}]> h)))).

(** Reading a request object: its list of messages, and whether an object
    is the message with a given role and content. *)
Definition messages_of (h : heap) (request : val) : option (list val) :=
  match request with
  | PRef l =>
      match h !! l with
      | Some (ODict d) =>
          match d !! "messages" with
          | Some (PRef lm) =>
              match h !! lm with
              | Some (OList ms) => Some ms
              | _ => None
              end
          | _ => None
          end
      | _ => None
      end
  | _ => None
  end.

Definition sampling_params_of (h : heap) (request : val) : option (gmap string val) :=
  match request with
  | PRef l =>
      match h !! l with
      | Some (ODict d) =>
          match d !! "sampling_params" with
          | Some (PRef lp) =>
              match h !! lp with
              | Some (ODict p) => Some p
              | _ => None
              end
          | _ => None
          end
      | _ => None
      end
  | _ => None
  end.

Definition is_message (h : heap) (role : string) (content : val) (m : val) : Prop :=
  ∃ l, m = PRef l ∧
       h !! l = Some (ODict {[ "role" := PStr role; "content" := content ]}).

End Callbacks.

(** ** Part 3: the driver script *)

Module Script.
Import Python.

(** *** Release versions

    [packaging.version.Version] for a final release [N(.N)*]: the release
    segment.  Two such versions compare as their release tuples do once
    trailing zeros are dropped.  The script itself compares versions with the
    comparison of its runtime (see [Runtime] below), whatever their form; this
    one is the comparison of the stub runtime. *)
Definition Version := list nat.

Fixpoint strip_trailing_zeros (release : list nat) : list nat :=
  match release with
  | [] => []
  | n :: rest =>
      match n, strip_trailing_zeros rest with
      | O, [] => []
      | _, rest' => n :: rest'
      end
  end.

(** Comparison of two tuples of integers: the first difference decides, and
    a proper prefix is smaller. *)
Fixpoint tuple_compare (a b : list nat) : comparison :=
  match a, b with
  | [], [] => Eq
  | [], _ :: _ => Lt
  | _ :: _, [] => Gt
  | x :: a', y :: b' =>
      match Nat.compare x y with
      | Eq => tuple_compare a' b'
      | c => c
      end
  end.

Definition version_compare (a b : Version) : comparison :=
  tuple_compare (strip_trailing_zeros a) (strip_trailing_zeros b).

(** [a >= b] *)
Definition version_ge (a b : Version) : bool :=
  match version_compare a b with
  | Lt => false
  | _ => true
  end.

(** [Version("2.44.1")] *)
Definition min_version : Version := [2; 44; 1]%nat.

(** The literal ["2.44.1"] of the assert. *)
Definition min_version_string : string := "2.44.1".

Definition version_message : string := "Ray version must be at least 2.44.1".

(** *** The engine configuration *)

Record Config : Type := {
  model_source : string;
  engine_kwargs : gmap string value;
  concurrency : Z;
  batch_size : Z;
}.

(** The keyword arguments of the call to [vLLMEngineProcessorConfig]. *)
Definition config_literal : Config := {|
  model_source := "unsloth/Llama-3.1-8B-Instruct";
  engine_kwargs := {[ "enable_chunked_prefill" := VBool true;
                      "max_num_batched_tokens" := VInt 4096;
                      "max_model_len" := VInt 16384 ]};
  concurrency := 1;
  batch_size := 64;
|}.

Definition source_uri : string := "s3://anonymous@air-example-data/prompts.txt".

(** The [limit] of the peek. *)
Definition peek_limit : nat := 10.

(** A record as the script reads it back from the runtime. *)
Abbreviation Row := (gmap string value).

(** A callback of the processor: a function from a row object to a new
    object, evaluated in the store of whichever worker calls it. *)
Abbreviation callback := (val → Py val).

(** *** The runtime

    Everything the script calls outside itself.  Each operation either
    returns or raises; how it does its work is the runtime's business. *)
Class Runtime : Type := {
  Dataset : Type;
  Schema : Type;
  Processor : Type;
  VersionObject : Type;
  (** [import m] ([names] empty) and [from m import names] *)
  import_module : string → list string → result unit;
  (** [ray.__version__] *)
  ray__version__ : string;
  (** [Version(s)], of [packaging.version] *)
  parse_version : string → result VersionObject;
  (** [v >= w] on two [Version] objects *)
  version_geq : VersionObject → VersionObject → bool;
  (** [ray.data.read_text(uri)] *)
  read_text : string → result Dataset;
  (** [ds.schema()] *)
  schema : Dataset → result Schema;
  (** [ds.count()] *)
  count : Dataset → result nat;
  (** The check [vLLMEngineProcessorConfig(...)] makes of its keyword
      arguments; the object constructed holds the arguments as given. *)
  vLLMEngineProcessorConfig : Config → result unit;
  (** [build_llm_processor(config, preprocess=..., postprocess=...)] *)
  build_llm_processor : Config → callback → callback → result Processor;
  (** [vllm_processor(ds)] *)
  call_processor : Processor → Dataset → result Dataset;
  (** [ds.take(limit=n)] *)
  take : Dataset → nat → result (list Row);
}.

Section WithRuntime.
Context `{rt : Runtime}.

(** *** Events: the calls into the runtime and the lines printed *)

Inductive line : Type :=
| LSchema (s : Schema)          (* [print(ds.schema())] *)
| LSize (n : nat)               (* [print(f"Size of dataset: {size} prompts")] *)
| LPrompt (v : value)           (* [print(f"Prompt: {prompt!r}")] *)
| LGenerated (v : value).       (* [print(f"Generated text: {generated_text!r}")] *)

Inductive event : Type :=
| EImport (module : string) (names : list string)
| EReadText (uri : string)
| ESchema
| ECount
| ENewConfig (c : Config)
| EBuildProcessor (c : Config)
| ECallProcessor
| ETake (limit : nat)
| EPrint (l : line).

(** *** The module's global variables *)

Record Globals : Type := {
  ds : option Dataset;
  size : option nat;
  config : option Config;
  vllm_processor : option Processor;
  outputs : option (list Row);
  output : option Row;
  prompt : option value;
  generated_text : option value;
}.

Record State : Type := {
  globals : Globals;
  trace : list event;   (* oldest first *)
}.

Definition no_globals : Globals := {|
  ds := None; size := None; config := None; vllm_processor := None;
  outputs := None; output := None; prompt := None; generated_text := None;
|}.

Definition initial_state : State := {| globals := no_globals; trace := [] |}.

(** Statements run in a state; an uncaught exception ends the run and
    leaves the state as it was when it was raised. *)
Definition M (A : Type) : Type := State → result A * State.

#[local] Instance M_ret : MRet M := λ A a st, (Ok a, st).
#[local] Instance M_bind : MBind M := λ A B f m st,
  match m st with
  | (Ok a, st') => f a st'
  | (Raise e, st') => (Raise e, st')
  end.

Definition throw {A} (e : exn) : M A := λ st, (Raise e, st).

(** The outcome of a call into the runtime, or of a lookup. *)
Definition lift {A} (r : result A) : M A := λ st, (r, st).

Definition emit (e : event) : M unit := λ st,
  (Ok (), {| globals := globals st; trace := trace st ++ [e] |}).

(** Reading a global variable. *)
Definition var {A} (field : Globals → option A) (name : string) : M A := λ st,
  match field (globals st) with
  | Some x => (Ok x, st)
  | None => (Raise (NameError name), st)
  end.

(** Binding a global variable. *)
Definition assign (update : Globals → Globals) : M unit := λ st,
  (Ok (), {| globals := update (globals st); trace := trace st |}).

Definition set_ds (x : Dataset) (g : Globals) : Globals :=
  {| ds := Some x; size := size g; config := config g;
     vllm_processor := vllm_processor g; outputs := outputs g;
     output := output g; prompt := prompt g; generated_text := generated_text g |}.
Definition set_size (x : nat) (g : Globals) : Globals :=
  {| ds := ds g; size := Some x; config := config g;
     vllm_processor := vllm_processor g; outputs := outputs g;
     output := output g; prompt := prompt g; generated_text := generated_text g |}.
Definition set_config (x : Config) (g : Globals) : Globals :=
  {| ds := ds g; size := size g; config := Some x;
     vllm_processor := vllm_processor g; outputs := outputs g;
     output := output g; prompt := prompt g; generated_text := generated_text g |}.
Definition set_vllm_processor (x : Processor) (g : Globals) : Globals :=
  {| ds := ds g; size := size g; config := config g;
     vllm_processor := Some x; outputs := outputs g;
     output := output g; prompt := prompt g; generated_text := generated_text g |}.
Definition set_outputs (x : list Row) (g : Globals) : Globals :=
  {| ds := ds g; size := size g; config := config g;
     vllm_processor := vllm_processor g; outputs := Some x;
     output := output g; prompt := prompt g; generated_text := generated_text g |}.
Definition set_output (x : Row) (g : Globals) : Globals :=
  {| ds := ds g; size := size g; config := config g;
     vllm_processor := vllm_processor g; outputs := outputs g;
     output := Some x; prompt := prompt g; generated_text := generated_text g |}.
Definition set_prompt (x : value) (g : Globals) : Globals :=
  {| ds := ds g; size := size g; config := config g;
     vllm_processor := vllm_processor g; outputs := outputs g;
     output := output g; prompt := Some x; generated_text := generated_text g |}.
Definition set_generated_text (x : value) (g : Globals) : Globals :=
  {| ds := ds g; size := size g; config := config g;
     vllm_processor := vllm_processor g; outputs := outputs g;
     output := output g; prompt := prompt g; generated_text := Some x |}.

(** [for x in xs: body] *)
Fixpoint for_each {A} (xs : list A) (body : A → M unit) : M unit :=
  match xs with
  | [] => mret ()
  | x :: xs' => body x ≫= λ _, for_each xs' body
  end.

(** *** The statements, in the order of the file *)

(** [import m] and [from m import names]: the names bound are the
    operations of the runtime. *)
Definition import_ (module : string) (names : list string) : M unit :=
  emit (EImport module names) ≫= λ _,
  lift (import_module module names).

(** Line 24: [import ray] *)
Definition import_ray : M unit := import_ "ray" [].

(** Line 25: [from packaging.version import Version] *)
Definition import_version : M unit := import_ "packaging.version" ["Version"].

(** Line 26: [from ray.data.llm import build_llm_processor, vLLMEngineProcessorConfig] *)
Definition import_llm : M unit :=
  import_ "ray.data.llm" ["build_llm_processor"; "vLLMEngineProcessorConfig"].

(** The condition of the assert, [Version(ray.__version__) >= Version("2.44.1")]:
    the left operand is evaluated first. *)
Definition version_test : result bool :=
  v ← parse_version ray__version__;
  w ← parse_version min_version_string;
  Ok (version_geq v w).

(** Lines 28-30: [assert Version(ray.__version__) >= Version("2.44.1"), (...)],
    with assertions enabled, as they are unless the interpreter is asked to
    drop them. *)
Definition assert_version : M unit :=
  ok ← lift version_test;
  if ok : bool then mret () else throw (AssertionError version_message).

(** Line 38: [ds = ray.data.read_text("s3://...")] *)
Definition load : M unit :=
  emit (EReadText source_uri) ≫= λ _,
  d ← lift (read_text source_uri);
  assign (set_ds d).

(** Line 39: [print(ds.schema())] *)
Definition print_schema : M unit :=
  d ← var ds "ds";
  emit ESchema ≫= λ _,
  s ← lift (schema d);
  emit (EPrint (LSchema s)).

(** Line 41: [size = ds.count()] *)
Definition count_rows : M unit :=
  d ← var ds "ds";
  emit ECount ≫= λ _,
  n ← lift (count d);
  assign (set_size n).

(** Line 42: [print(f"Size of dataset: {size} prompts")] *)
Definition print_size : M unit :=
  n ← var size "size";
  emit (EPrint (LSize n)).

(** Lines 45-54: [config = vLLMEngineProcessorConfig(...)] *)
Definition configure : M unit :=
  emit (ENewConfig config_literal) ≫= λ _,
  lift (vLLMEngineProcessorConfig config_literal) ≫= λ _,
  assign (set_config config_literal).

(** Lines 58-74: [vllm_processor = build_llm_processor(config, ...)] *)
Definition build_pipeline : M unit :=
  c ← var config "config";
  emit (EBuildProcessor c) ≫= λ _,
  p ← lift (build_llm_processor c Callbacks.preprocess Callbacks.postprocess);
  assign (set_vllm_processor p).

(** Line 76: [ds = vllm_processor(ds)] *)
Definition apply_pipeline : M unit :=
  p ← var vllm_processor "vllm_processor";
  d ← var ds "ds";
  emit ECallProcessor ≫= λ _,
  d' ← lift (call_processor p d);
  assign (set_ds d').

(** Line 81: [outputs = ds.take(limit=10)] *)
Definition peek : M unit :=
  d ← var ds "ds";
  emit (ETake peek_limit) ≫= λ _,
  rows ← lift (take d peek_limit);
  assign (set_outputs rows).

(** Lines 84-87, the body of the loop. *)
Definition print_output (o : Row) : M unit :=
  assign (set_output o) ≫= λ _,
  o' ← var output "output";
  p ← lift (dict_getitem o' "prompt");
  assign (set_prompt p) ≫= λ _,
  o'' ← var output "output";
  g ← lift (dict_getitem o'' "generated_text");
  assign (set_generated_text g) ≫= λ _,
  p' ← var prompt "prompt";
  emit (EPrint (LPrompt p')) ≫= λ _,
  g' ← var generated_text "generated_text";
  emit (EPrint (LGenerated g')).

(** Lines 83-87: [for output in outputs: ...] *)
Definition print_outputs : M unit :=
  rows ← var outputs "outputs";
  for_each rows print_output.

Definition script : list (M unit) :=
  [ import_ray; import_version; import_llm;
    assert_version; load; print_schema; count_rows; print_size; configure;
    build_pipeline; apply_pipeline; peek; print_outputs ].

(** Statements run one after the other. *)
Fixpoint run_stmts (stmts : list (M unit)) : M unit :=
  match stmts with
  | [] => mret ()
  | s :: rest => s ≫= λ _, run_stmts rest
  end.

(** A run of the script, and the run of its first [n] statements. *)
Definition run : result unit * State := run_stmts script initial_state.

Definition run_prefix (n : nat) : result unit * State :=
  run_stmts (firstn n script) initial_state.

(** *** Stages *)

Inductive stage : Type :=
| Load | Count | Configure | Build | Apply | Consume.

(** The call that starts each stage. *)
Definition stage_of (e : event) : option stage :=
  match e with
  | EReadText _ => Some Load
  | ECount => Some Count
  | ENewConfig _ => Some Configure
  | EBuildProcessor _ => Some Build
  | ECallProcessor => Some Apply
  | ETake _ => Some Consume
  | EImport _ _ | ESchema | EPrint _ => None
  end.

Definition stages (t : list event) : list stage := omap stage_of t.

Definition all_stages : list stage := [Load; Count; Configure; Build; Apply; Consume].

(** Modelled from the spec: which calls into the dataset runtime make the
    script wait for the evaluation of a dataset.  The runtime is not part of
    the repository; the spec says of it that reading and applying the
    processor yield lazy sequences, that the schema comes with the read, and
    that the count and the bounded peek force evaluation. *)
Definition forces_evaluation (e : event) : bool :=
  match e with
  | ECount | ETake _ => true
  | _ => false
  end.

(** The exceptions that come from outside the script: [e] is what some call
    into the runtime, as the script makes it, raises. *)
Definition runtime_raises (e : exn) : Prop :=
  (∃ module names, import_module module names = Raise e) ∨
  (∃ s, parse_version s = Raise e) ∨
  read_text source_uri = Raise e ∨
  (∃ d, schema d = Raise e) ∨
  (∃ d, count d = Raise e) ∨
  vLLMEngineProcessorConfig config_literal = Raise e ∨
  build_llm_processor config_literal Callbacks.preprocess Callbacks.postprocess
    = Raise e ∨
  (∃ p d, call_processor p d = Raise e) ∨
  (∃ d, take d peek_limit = Raise e).

(** The failed lookups of the loop over the outputs. *)
Definition lookup_fails (e : exn) : Prop :=
  e = KeyError "prompt" ∨ e = KeyError "generated_text".

Definition is_print (e : event) : Prop :=
  match e with
  | EPrint _ => True
  | _ => False
  end.

(** The calls of a trace that force the evaluation of a dataset. *)
Definition forcing_calls (t : list event) : list event :=
  List.filter forces_evaluation t.

(** In a trace, stage [s] is entered at most once. *)
Definition at_most_once (s : stage) (t : list event) : Prop :=
  ∀ pre e post, t = (pre ++ e :: post)%list → stage_of e = Some s →
    ∀ e', e' ∈ (pre ++ post)%list → stage_of e' ≠ Some s.

(** In a trace, stage [b] is entered only after stage [a] was. *)
Definition occurs_before (a b : stage) (t : list event) : Prop :=
  ∀ pre e post, t = (pre ++ e :: post)%list → stage_of e = Some b →
    ∃ e', e' ∈ pre ∧ stage_of e' = Some a.

(** A statement leaves the global [config] as it is, or binds it to the
    configuration the script constructs. *)
Definition keeps_config (s : M unit) : Prop :=
  ∀ st, config (globals (s st).2) = config (globals st) ∨
        config (globals (s st).2) = Some config_literal.

(** The two lines the body of the loop prints for an output that has both
    keys. *)
Definition lines_of (o : Row) : option (list event) :=
  p ← o !! "prompt";
  g ← o !! "generated_text";
  Some [EPrint (LPrompt p); EPrint (LGenerated g)].

(** The key whose lookup fails first on an output that lacks one. *)
Definition missing_key (o : Row) : string :=
  match o !! "prompt" with
  | None => "prompt"
  | Some _ => "generated_text"
  end.

(** The events of the three imports. *)
Definition imports_trace : list event :=
  [ EImport "ray" [];
    EImport "packaging.version" ["Version"];
    EImport "ray.data.llm" ["build_llm_processor"; "vLLMEngineProcessorConfig"] ].

(** The state in which the loop over the outputs starts, when the imports
    and every call into the runtime have returned: [d] is the dataset read,
    [n] its count, [p] the processor, [d'] the dataset the processor returned
    and [rows] the result of the peek. *)
Definition state_before_loop (d : Dataset) (s : Schema) (n : nat) (p : Processor)
    (d' : Dataset) (rows : list Row) : State := {|
  globals := {| ds := Some d'; size := Some n; config := Some config_literal;
                vllm_processor := Some p; outputs := Some rows;
                output := None; prompt := None; generated_text := None |};
  trace := imports_trace ++
           [ EReadText source_uri; ESchema; EPrint (LSchema s); ECount;
             EPrint (LSize n); ENewConfig config_literal;
             EBuildProcessor config_literal; ECallProcessor; ETake peek_limit ];
|}.

(** The three imports return. *)
Definition imports_return : Prop :=
  import_module "ray" [] = Ok () ∧
  import_module "packaging.version" ["Version"] = Ok () ∧
  import_module "ray.data.llm" ["build_llm_processor"; "vLLMEngineProcessorConfig"]
    = Ok ().

Definition is_import (e : event) : Prop :=
  match e with
  | EImport _ _ => True
  | _ => False
  end.

(** The first import that raises: it raises [e], and the imports before
    it have returned. *)
Inductive import_fails : exn → Prop :=
| fails_import_ray e :
    import_module "ray" [] = Raise e → import_fails e
| fails_import_version e :
    import_module "ray" [] = Ok () →
    import_module "packaging.version" ["Version"] = Raise e → import_fails e
| fails_import_llm e :
    import_module "ray" [] = Ok () →
    import_module "packaging.version" ["Version"] = Ok () →
    import_module "ray.data.llm" ["build_llm_processor"; "vLLMEngineProcessorConfig"]
      = Raise e →
    import_fails e.

(** The version of the runtime is lower than 2.44.1: both strings are
    versions, and the comparison of the two says that the first is not
    greater than or equal to the second. *)
Definition version_lower : Prop :=
  ∃ v w, parse_version ray__version__ = Ok v ∧ parse_version "2.44.1" = Ok w ∧
         version_geq v w = false.

(** The state in which the assert runs, when the imports have returned. *)
Definition state_after_imports : State :=
  {| globals := no_globals; trace := imports_trace |}.

(** The imports return and the version test passes: the run gets to the
    first stage. *)
Definition prelude_returns : Prop := imports_return ∧ version_test = Ok true.

(** The first call into the runtime that raises: it raises [e] and belongs
    to stage [s].  The calls before it, in the order of the script, have
    returned. *)
Inductive stage_fails : stage → exn → Prop :=
| fails_read e :
    read_text source_uri = Raise e → stage_fails Load e
| fails_schema d e :
    read_text source_uri = Ok d → schema d = Raise e → stage_fails Load e
| fails_count d s e :
    read_text source_uri = Ok d → schema d = Ok s → count d = Raise e →
    stage_fails Count e
| fails_config d s n e :
    read_text source_uri = Ok d → schema d = Ok s → count d = Ok n →
    vLLMEngineProcessorConfig config_literal = Raise e →
    stage_fails Configure e
| fails_build d s n e :
    read_text source_uri = Ok d → schema d = Ok s → count d = Ok n →
    vLLMEngineProcessorConfig config_literal = Ok () →
    build_llm_processor config_literal Callbacks.preprocess Callbacks.postprocess
      = Raise e →
    stage_fails Build e
| fails_apply d s n p e :
    read_text source_uri = Ok d → schema d = Ok s → count d = Ok n →
    vLLMEngineProcessorConfig config_literal = Ok () →
    build_llm_processor config_literal Callbacks.preprocess Callbacks.postprocess
      = Ok p →
    call_processor p d = Raise e →
    stage_fails Apply e
| fails_take d s n p d' e :
    read_text source_uri = Ok d → schema d = Ok s → count d = Ok n →
    vLLMEngineProcessorConfig config_literal = Ok () →
    build_llm_processor config_literal Callbacks.preprocess Callbacks.postprocess
      = Ok p →
    call_processor p d = Ok d' → take d' peek_limit = Raise e →
    stage_fails Consume e.

(** Every call into the runtime returns. *)
Definition calls_return (d : Dataset) (s : Schema) (n : nat) (p : Processor)
    (d' : Dataset) (rows : list Row) : Prop :=
  read_text source_uri = Ok d ∧ schema d = Ok s ∧ count d = Ok n ∧
  vLLMEngineProcessorConfig config_literal = Ok () ∧
  build_llm_processor config_literal Callbacks.preprocess Callbacks.postprocess
    = Ok p ∧
  call_processor p d = Ok d' ∧ take d' peek_limit = Ok rows.

(** The stages entered when the run gets as far as stage [s], and the
    forcing calls made by then. *)
Definition stages_upto (s : stage) : list stage :=
  match s with
  | Load => [Load]
  | Count => [Load; Count]
  | Configure => [Load; Count; Configure]
  | Build => [Load; Count; Configure; Build]
  | Apply => [Load; Count; Configure; Build; Apply]
  | Consume => [Load; Count; Configure; Build; Apply; Consume]
  end.

Definition forcing_upto (s : stage) : list event :=
  match s with
  | Load => []
  | Count | Configure | Build | Apply => [ECount]
  | Consume => [ECount; ETake peek_limit]
  end.

End WithRuntime.

Arguments event {rt}.
Arguments State {rt}.
Arguments Globals {rt}.

End Script.

(** ** The dataset runtime, as the spec describes it *)

Module LazySeq.
Import Python.

(** Modelled from the spec: a lazy sequence, whose code (the dataset
    runtime) is not in the repository: "a sequence of values computed on
    demand".  An element is a suspended computation; forcing it yields the
    record or the failure of the stage that computes it. *)
Definition lazy_seq (A : Type) : Type := list (unit → result A).

Definition size {A} (s : lazy_seq A) : nat := length s.

(** An element that is already there. *)
Definition ready {A} (a : A) : unit → result A := λ _, Ok a.

(** Modelled from the spec: the bounded peek of the result consumer: "given
    a limit N, returns the first N output Records materialized into memory",
    and "must not force full-dataset evaluation".  Elements are forced from
    the front, one at a time, until [limit] records are there or the
    sequence ends.  The second component counts the elements forced. *)
Fixpoint take {A} (limit : nat) (s : lazy_seq A) : result (list A) * nat :=
  match limit, s with
  | O, _ => (Ok [], O)
  | S _, [] => (Ok [], O)
  | S n, force :: rest =>
      match force () with
      | Raise e => (Raise e, 1%nat)
      | Ok r =>
          match take n rest with
          | (Ok rs, k) => (Ok (r :: rs), S k)
          | (Raise e, k) => (Raise e, S k)
          end
      end
  end.

(** Modelled from the spec: the evaluation of the whole sequence, which the
    count forces. *)
Definition materialize {A} (s : lazy_seq A) : result (list A) * nat :=
  take (size s) s.

(** Modelled from the spec: the processor pipeline applied to a lazy
    sequence is a lazy sequence; nothing is computed until it is forced. *)
Definition map_lazy {A B} (f : A → result B) (s : lazy_seq A) : lazy_seq B :=
  (λ force _, force () ≫= f) <$> s.

End LazySeq.

(** ** A stub runtime

    Modelled from the spec: the runtime of the end-to-end scenario.  The
    dataset is a list of text lines; the inference engine echoes
    ["<haiku about: " + input + ">"] as [generated_text]; each worker call
    runs the callbacks on a row object in a store of its own. *)

Module Stub.
Import Stdlib.Strings.Ascii.
Import Python LazySeq.

(** Modelled from the spec: the stub inference engine. *)
Definition echo (input : string) : string := "<haiku about: " ++ input ++ ">".

(** Modelled from the spec: the engine reads the last message of the
    request, the user's. *)
Definition last_item (x : val) : Py val := λ h,
  match x with
  | PRef l =>
      match h !! l with
      | Some (OList items) =>
          match last items with
          | Some v => (Ok v, h)
          | None => (Raise (RuntimeFault "no message"), h)
          end
      | _ => (Raise (RuntimeFault "messages is not a list"), h)
      end
  | _ => (Raise (RuntimeFault "messages is not a list"), h)
  end.

(** Modelled from the spec: the row the engine hands to postprocess, "engine
    output merged fields": the fields of the row it was given, and the prompt
    and the generated text. *)
Definition engine_row (row prompt : val) : Py val := λ h,
  match row, prompt with
  | PRef l, PStr input =>
      match h !! l with
      | Some (ODict d) =>
          alloc (ODict (<["generated_text" := PStr (echo input)]>
                          (<["prompt" := prompt]> d))) h
      | _ => (Raise (RuntimeFault "row is not a dict"), h)
      end
  | _, _ => (Raise (RuntimeFault "prompt is not a string"), h)
  end.

(** Modelled from the spec: the columns of a stub row are constants. *)
Definition const_val (v : value) : option val :=
  match v with
  | VNone => Some PNone
  | VBool b => Some (PBool b)
  | VInt z => Some (PInt z)
  | VFloat f => Some (PFloat f)
  | VStr s => Some (PStr s)
  | VList _ | VDict _ => None
  end.

(** Modelled from the spec: one record through the pipeline "applies
    preprocess, invokes external inference engine, applies postprocess". *)
Definition worker (preprocess postprocess : val → Py val) (fields : gmap string val)
  : Py val :=
  row ← alloc (ODict fields);
  request ← preprocess row;
  messages ← getitem request "messages";
  user_message ← last_item messages;
  prompt ← getitem user_message "content";
  engine_output ← engine_row row prompt;
  postprocess engine_output.

(** Modelled from the spec: a worker call, from record to record, in a
    store of its own. *)
Definition process_row (preprocess postprocess : val → Py val) (r : gmap string value)
  : result (gmap string value) :=
  match traverse_map const_val r with
  | None => Raise (RuntimeFault "nested column")
  | Some fields =>
      match worker preprocess postprocess fields ∅ with
      | (Ok out, h) =>
          match snapshot 8 h out with
          | Some (VDict d) => Ok d
          | _ => Raise (RuntimeFault "postprocess did not return a record")
          end
      | (Raise e, _) => Raise e
      end
  end.

(** Modelled from the spec: a record "carries a text field when sourced
    from plain text input". *)
Definition text_row (line : string) : gmap string value := {[ "text" := VStr line ]}.

(** Modelled from the spec: a decimal digit. *)
Definition digit (c : ascii) : option nat :=
  let n := nat_of_ascii c in
  if (48 <=? n)%nat && (n <=? 57)%nat then Some (n - 48)%nat else None.

(** Modelled from the spec: the release segment [N(.N)*] of a version
    string; [current] is the number being read. *)
Fixpoint parse_release (s : string) (current : option nat) : option (list nat) :=
  match s with
  | EmptyString => n ← current; Some [n]
  | String c rest =>
      if Ascii.eqb c "."%char then
        n ← current; ns ← parse_release rest None; Some (n :: ns)
      else
        d ← digit c; parse_release rest (Some (10 * default 0%nat current + d)%nat)
  end.

(** Modelled from the spec: the stub knows the versions of final releases;
    any other string is no version to it. *)
Definition parse (s : string) : result Script.Version :=
  match parse_release s None with
  | Some v => Ok v
  | None => Raise (InvalidVersion s)
  end.

(** Modelled from the spec: an import succeeds when the module is installed. *)
Definition import_from (modules : list string) (module : string) (names : list string)
  : result unit :=
  if bool_decide (module ∈ modules) then Ok () else Raise (ImportError module).

(** Modelled from the spec: the modules of an installation that has the
    [ray.data.llm] API, and those of one that predates it. *)
Definition all_modules : list string := ["ray"; "packaging.version"; "ray.data.llm"].
Definition old_modules : list string := ["ray"; "packaging.version"].

(** Modelled from the spec: the runtime as a whole.  The loader yields one
    row per line, already there; the count forces the whole dataset; the
    processor maps the rows lazily; the peek is the bounded peek. *)
Definition runtime (version : string) (modules : list string) (lines : list string)
  : Script.Runtime := {|
  Script.Dataset := lazy_seq (gmap string value);
  Script.Schema := list string;
  Script.Processor := (val → Py val) * (val → Py val);
  Script.VersionObject := Script.Version;
  Script.import_module := import_from modules;
  Script.ray__version__ := version;
  Script.parse_version := parse;
  Script.version_geq := Script.version_ge;
  Script.read_text := λ _, Ok (ready ∘ text_row <$> lines);
  Script.schema := λ _, Ok ["text"];
  Script.count := λ d, (materialize d).1 ≫= λ rs, Ok (length rs);
  Script.vLLMEngineProcessorConfig := λ _, Ok ();
  Script.build_llm_processor := λ _ pre post, Ok (pre, post);
  Script.call_processor := λ p d, Ok (map_lazy (process_row p.1 p.2) d);
  Script.take := λ d n, (take n d).1;
|}.

(** Modelled from the spec: the input dataset of the end-to-end scenario. *)
Definition scenario_lines : list string :=
  ["Tell me about cats"; "Tell me about dogs"; "Tell me about birds"].

(** Modelled from the spec: a runtime whose storage cannot be reached; the
    loader raises, and nothing after it is ever called. *)
Definition offline : exn := RuntimeFault "cannot reach s3://anonymous@air-example-data".
Definition offline_runtime : Script.Runtime := {|
  Script.Dataset := unit;
  Script.Schema := unit;
  Script.Processor := unit;
  Script.VersionObject := Script.Version;
  Script.import_module := import_from all_modules;
  Script.ray__version__ := "2.44.1";
  Script.parse_version := parse;
  Script.version_geq := Script.version_ge;
  Script.read_text := λ _, Raise offline;
  Script.schema := λ _, Ok ();
  Script.count := λ _, Ok 0%nat;
  Script.vLLMEngineProcessorConfig := λ _, Ok ();
  Script.build_llm_processor := λ _ _ _, Ok ();
  Script.call_processor := λ _ _, Ok ();
  Script.take := λ _ _, Ok [];
|}.

End Stub.

(** ** Sample inputs *)

Module Examples.
Import Python.

Definition cats : string := "Tell me about cats".

(** A row as the loader makes it from a line of text. *)
Definition text_fields : gmap string val := {[ "text" := PStr cats ]}.
Definition text_store : heap := {[ 1%positive := ODict text_fields ]}.

(** A row as the engine hands it to postprocess. *)
Definition engine_fields : gmap string val :=
  {[ "text" := PStr cats; "prompt" := PStr cats;
     "generated_text" := PStr (Stub.echo cats) ]}.
Definition engine_store : heap := {[ 1%positive := ODict engine_fields ]}.

(** The same row in another store, at another address. *)
Definition other_store : heap :=
  {[ 1%positive := OList [PInt 7]; 2%positive := ODict text_fields ]}.

Definition text_structure : value := VDict {[ "text" := VStr cats ]}.

(** A row that has an [answer] column already. *)
Definition answered_fields : gmap string val :=
  {[ "generated_text" := PStr (Stub.echo cats); "answer" := PStr "an earlier answer" ]}.
Definition answered_store : heap := {[ 1%positive := ODict answered_fields ]}.

(** A row without a [text] column. *)
Definition prompt_fields : gmap string val := {[ "prompt" := PStr cats ]}.
Definition prompt_store : heap := {[ 1%positive := ODict prompt_fields ]}.

(** The runtime of the end-to-end scenario at the minimum version; at the
    release before it, which has the same modules; and at an older release,
    which has no [ray.data.llm]. *)
Definition good_runtime : Script.Runtime :=
  Stub.runtime "2.44.1" Stub.all_modules Stub.scenario_lines.
Definition early_runtime : Script.Runtime :=
  Stub.runtime "2.44.0" Stub.all_modules Stub.scenario_lines.
Definition old_runtime : Script.Runtime :=
  Stub.runtime "2.9.3" Stub.old_modules Stub.scenario_lines.

(** A row with an [answer] column and nothing else. *)
Definition answer_only_fields : gmap string val :=
  {[ "answer" := PStr "an earlier answer" ]}.
Definition answer_only_store : heap := {[ 1%positive := ODict answer_only_fields ]}.

Definition engine_structure : value :=
  VDict {[ "text" := VStr cats; "prompt" := VStr cats;
           "generated_text" := VStr (Stub.echo cats) ]}.

(** Outputs as the loop of the script reads them: one with both keys, one
    without its prompt, one without its generated text. *)
Definition full_output : gmap string value :=
  {[ "prompt" := VStr cats; "generated_text" := VStr (Stub.echo cats);
     "answer" := VStr (Stub.echo cats) ]}.
Definition output_without_prompt : gmap string value :=
  {[ "generated_text" := VStr (Stub.echo cats) ]}.
Definition output_without_text : gmap string value :=
  {[ "prompt" := VStr cats ]}.

(** The datasets of the scenario: as read, and as the processor returns it. *)
Definition scenario_dataset : LazySeq.lazy_seq (gmap string value) :=
  LazySeq.ready ∘ Stub.text_row <$> Stub.scenario_lines.
Definition scenario_processor : (val → Py val) * (val → Py val) :=
  (Callbacks.preprocess, Callbacks.postprocess).
Definition scenario_processed : LazySeq.lazy_seq (gmap string value) :=
  LazySeq.map_lazy (Stub.process_row Callbacks.preprocess Callbacks.postprocess)
    scenario_dataset.
Definition scenario_rows : list (gmap string value) :=
  (λ line, {[ "text" := VStr line; "prompt" := VStr line;
              "generated_text" := VStr (Stub.echo line);
              "answer" := VStr (Stub.echo line) ]}) <$> Stub.scenario_lines.

(** A sequence of eleven elements of which only the first ten can be
    computed. *)
Definition eleven : LazySeq.lazy_seq nat :=
  ((LazySeq.ready <$> seq 0 10) ++ [λ _, Raise (RuntimeFault "out of memory")])%list.

End Examples.

(** * Facts *)

(** ** The Python fragment *)

Module PythonFacts.
Import Python.

Lemma fresh_lookup (h : heap) : h !! fresh (dom h) = None.
Proof. apply not_elem_of_dom, is_fresh. Qed.

Lemma alloc_run o (h : heap) :
  ∃ l, h !! l = None ∧ alloc o h = (Ok (PRef l), <[l := o]> h).
Proof. exists (fresh (dom h)). split; [apply fresh_lookup | reflexivity]. Qed.

(** *** Frames *)

Lemma frame_ret {A} (a : A) : frame (mret a).
Proof. intros h. reflexivity. Qed.

Lemma frame_raise {A} e : frame (@raise A e).
Proof. intros h. reflexivity. Qed.

Lemma frame_bind {A B} (m : Py A) (f : A → Py B) :
  frame m → (∀ a, frame (f a)) → frame (m ≫= f).
Proof.
  intros Hm Hf h. unfold mbind, Py_bind.
  specialize (Hm h). destruct (m h) as [[a|e] h1]; simpl in *; [|done].
  etrans; [exact Hm | apply Hf].
Qed.

Lemma frame_alloc o : frame (alloc o).
Proof. intros h. simpl. apply insert_subseteq, fresh_lookup. Qed.

Lemma frame_getitem x k : frame (getitem x k).
Proof.
  intros h. unfold getitem.
  destruct x as [| | | | |l]; simpl; try done.
  destruct (h !! l) as [[|]|]; done.
Qed.

Lemma frame_dict_call kwargs star : frame (dict_call kwargs star).
Proof.
  intros h. unfold dict_call.
  destruct star as [[| | | | |l]|]; try done; [|apply frame_alloc].
  destruct (h !! l) as [[|d]|]; try done.
  destruct (duplicate_keyword kwargs d); [done | apply frame_alloc].
Qed.

Create HintDb frame.
#[export] Hint Resolve frame_ret frame_raise frame_alloc frame_getitem
  frame_dict_call : frame.

(** *** Structures *)

Lemma mapM_impl {A B} (f g : A → option B) l k :
  (∀ x y, f x = Some y → g x = Some y) → mapM f l = Some k → mapM g l = Some k.
Proof. intros H. rewrite !mapM_Some. intros Hl. eapply Forall2_impl; eauto. Qed.

Lemma traverse_map_lookup {A B} (f : A → option B) d m k :
  traverse_map f d = Some m → m !! k = d !! k ≫= f.
Proof.
  unfold traverse_map. case_decide; [|done]. intros [= <-]. apply lookup_omap.
Qed.

Lemma traverse_map_defined {A B} (f : A → option B) d m k x :
  traverse_map f d = Some m → d !! k = Some x → is_Some (f x).
Proof.
  unfold traverse_map. case_decide as Hf; [|done]. intros _ Hk. exact (Hf k x Hk).
Qed.

Lemma traverse_map_impl {A B} (f g : A → option B) d m :
  (∀ x y, f x = Some y → g x = Some y) →
  traverse_map f d = Some m → traverse_map g d = Some m.
Proof.
  intros H. unfold traverse_map. case_decide as Hf; [|done]. intros [= <-].
  rewrite decide_True.
  - f_equal. apply map_eq. intros k. rewrite !lookup_omap.
    destruct (d !! k) as [x|] eqn:E; [|done]. simpl.
    destruct (Hf k x E) as [y Hy]. rewrite Hy. apply H, Hy.
  - intros k x E. destruct (Hf k x E) as [y Hy]. exists y. apply H, Hy.
Qed.

Lemma traverse_map_empty {A B} (f : A → option B) : traverse_map f ∅ = Some ∅.
Proof.
  unfold traverse_map. rewrite decide_True by apply map_Forall_empty.
  by rewrite omap_empty.
Qed.

Lemma traverse_map_insert {A B} (f : A → option B) d m k x y :
  f x = Some y → traverse_map f d = Some m →
  traverse_map f (<[k := x]> d) = Some (<[k := y]> m).
Proof.
  intros Hx. unfold traverse_map. case_decide as Hf; [|done]. intros [= <-].
  rewrite decide_True.
  - f_equal. by apply omap_insert_Some.
  - apply map_Forall_insert_2; [by exists y | done].
Qed.

(** More fuel and a larger store read the same structure. *)
Lemma snapshot_mono (n : nat) : ∀ (m : nat) (h h' : heap) x τ,
  (n ≤ m)%nat → h ⊆ h' → snapshot n h x = Some τ → snapshot m h' x = Some τ.
Proof.
  induction n as [|n IH]; intros m h h' x τ Hnm Hsub;
    destruct x as [| | | | |l]; destruct m as [|m]; simpl; try done; try lia.
  destruct (h !! l) as [o|] eqn:E; [|done].
  rewrite (lookup_weaken _ _ _ _ E Hsub).
  assert (∀ x y, snapshot n h x = Some y → snapshot m h' x = Some y) as Hstep
    by (intros; eapply IH; [lia | done | done]).
  destruct o as [items|d]; intros Hτ.
  - destruct (mapM (snapshot n h) items) as [k|] eqn:Ek; [|done].
    by rewrite (mapM_impl _ _ _ _ Hstep Ek).
  - destruct (traverse_map (snapshot n h) d) as [k|] eqn:Ek; [|done].
    by rewrite (traverse_map_impl _ _ _ _ Hstep Ek).
Qed.

Lemma snapshot_list n (h : heap) l items τs :
  h !! l = Some (OList items) → mapM (snapshot n h) items = Some τs →
  snapshot (S n) h (PRef l) = Some (VList τs).
Proof. intros Hl Hm. simpl. by rewrite Hl, Hm. Qed.

Lemma snapshot_dict n (h : heap) l d m :
  h !! l = Some (ODict d) → traverse_map (snapshot n h) d = Some m →
  snapshot (S n) h (PRef l) = Some (VDict m).
Proof. intros Hl Hm. simpl. by rewrite Hl, Hm. Qed.

Lemma snapshot_ref_inv n (h : heap) l τ :
  snapshot n h (PRef l) = Some τ →
  (∃ n' items τs, n = S n' ∧ h !! l = Some (OList items) ∧ τ = VList τs ∧
                  mapM (snapshot n' h) items = Some τs) ∨
  (∃ n' d m, n = S n' ∧ h !! l = Some (ODict d) ∧ τ = VDict m ∧
             traverse_map (snapshot n' h) d = Some m).
Proof.
  destruct n as [|n]; simpl; [done|].
  destruct (h !! l) as [[items|d]|]; [| |done].
  - destruct (mapM (snapshot n h) items) as [τs|] eqn:E; [|done].
    intros [= <-]. left. by exists n, items, τs.
  - destruct (traverse_map (snapshot n h) d) as [m|] eqn:E; [|done].
    intros [= <-]. right. by exists n, d, m.
Qed.

End PythonFacts.

(** ** The callbacks *)

Module CallbackFacts.
Import Python Callbacks PythonFacts.

Ltac step_alloc l F :=
  match goal with
  | |- context [alloc ?o ?h] => destruct (alloc_run o h) as (l & F & ->)
  end.

Lemma preprocess_run (h : heap) l d text :
  h !! l = Some (ODict d) → d !! "text" = Some text →
  ∃ l1 l2 l3 l4 l5,
    fresh_in h [l1; l2; l3; l4; l5] ∧
    preprocess (PRef l) h = (Ok (PRef l5), request_heap h text l1 l2 l3 l4 l5).
Proof.
  intros Hl Ht.
  unfold preprocess, mbind, Py_bind, dict_display, list_display, dict_call.
  step_alloc l1 F1.
  assert (l1 ≠ l) by congruence.
  unfold getitem, dict_getitem. rewrite lookup_insert_ne, Hl, Ht by done.
  step_alloc l2 F2. step_alloc l3 F3. step_alloc l4 F4. step_alloc l5 F5.
  repeat match goal with
         | F : <[_ := _]> _ !! _ = None |- _ => apply lookup_insert_None in F as [? ?]
         end.
  exists l1, l2, l3, l4, l5. split; [split|reflexivity].
  - rewrite !NoDup_cons, !not_elem_of_cons. 
    repeat split; try done; try apply NoDup_nil_2; by intros ?%elem_of_nil.
  - repeat (apply Forall_cons; split); try apply Forall_nil; done.
Qed.

Lemma request_heap_lookups (h : heap) text l1 l2 l3 l4 l5 :
  fresh_in h [l1; l2; l3; l4; l5] →
  let h' := request_heap h text l1 l2 l3 l4 l5 in
  h' !! l5 = Some (ODict {[ "messages" := PRef l3; "sampling_params" := PRef l4 ]}) ∧
  h' !! l4 = Some (ODict {[ "temperature" := PFloat temperature;
                            "max_tokens" := PInt max_tokens ]}) ∧
  h' !! l3 = Some (OList [PRef l1; PRef l2]) ∧
  h' !! l2 = Some (ODict {[ "role" := PStr "user"; "content" := text ]}) ∧
  h' !! l1 = Some (ODict {[ "role" := PStr "system"; "content" := PStr system_prompt ]}) ∧
  h ⊆ h'.
Proof.
  intros [Hnd Hfr]. rewrite !NoDup_cons, !not_elem_of_cons in Hnd.
  rewrite !Forall_cons in Hfr.
  destruct_and!. unfold request_heap. simpl.
  repeat split; try (by simplify_map_eq).
  apply map_subseteq_spec. intros i x Hi.
  rewrite !lookup_insert_ne by congruence. done.
Qed.

Lemma traverse_map_two {A B} (f : A → option B) k1 x1 y1 k2 x2 y2 :
  f x1 = Some y1 → f x2 = Some y2 →
  traverse_map f {[ k1 := x1; k2 := x2 ]} = Some {[ k1 := y1; k2 := y2 ]}.
Proof.
  intros H1 H2. apply traverse_map_insert; [done|].
  rewrite <-!insert_empty. apply traverse_map_insert; [done|].
  apply traverse_map_empty.
Qed.

Lemma preprocess_frame row : frame (preprocess row).
Proof.
  unfold preprocess, dict_display, list_display.
  repeat (apply frame_bind; [auto with frame | intros ?]). auto with frame.
Qed.

Lemma postprocess_frame row : frame (postprocess row).
Proof.
  unfold postprocess.
  repeat (apply frame_bind; [auto with frame | intros ?]). auto with frame.
Qed.

Lemma preprocess_not_dict (h : heap) row e :
  (∀ h', getitem row "text" h' = (Raise e, h')) →
  ∃ h', preprocess row h = (Raise e, h').
Proof.
  intros Hg. unfold preprocess, mbind, Py_bind, dict_display.
  step_alloc l1 F1. rewrite Hg. eauto.
Qed.

Lemma preprocess_observe (n : nat) (h : heap) row τ :
  snapshot n h row = Some τ →
  observe (n + 2) (preprocess row h) = Some (request_structure τ).
Proof.
  intros Hs.
  destruct row as [| | | | |l];
    try (destruct n; simpl in Hs; injection Hs as <-;
         (edestruct (preprocess_not_dict h) as [h' ->]; [|reflexivity]);
         reflexivity).
  apply snapshot_ref_inv in Hs
    as [(n' & items & τs & -> & Hl & -> & _)|(n' & d & m & -> & Hl & -> & Hm)].
  - unfold preprocess, mbind, Py_bind, dict_display.
    step_alloc l1 F1. unfold getitem.
    rewrite lookup_insert_ne, Hl by congruence. reflexivity.
  - pose proof (traverse_map_lookup _ _ _ "text" Hm) as Ht. simpl.
    destruct (d !! "text") as [text|] eqn:Et; simpl in Ht.
    + destruct (preprocess_run h l d text Hl Et)
        as (l1 & l2 & l3 & l4 & l5 & Hfr & ->).
      destruct (request_heap_lookups h text _ _ _ _ _ Hfr)
        as (H5 & H4 & H3 & H2 & H1 & Hsub).
      set (h' := request_heap h text l1 l2 l3 l4 l5) in *.
      rewrite Ht.
      destruct (traverse_map_defined _ _ _ _ _ Hm Et) as [t Etext].
      rewrite Etext.
      unfold observe. replace (n' + 2)%nat with (S (S n')) by lia.
      erewrite snapshot_dict; [reflexivity | exact H5 |].
      apply traverse_map_two.
      * eapply snapshot_list; [exact H3|].
        apply mapM_Some. repeat constructor.
        -- eapply snapshot_dict; [exact H1|].
           apply traverse_map_two; by destruct n'.
        -- eapply snapshot_dict; [exact H2|].
           apply traverse_map_two; [by destruct n'|].
           eapply snapshot_mono; [| exact Hsub | exact Etext]. lia.
      * eapply snapshot_dict; [exact H4|]. apply traverse_map_two; by destruct n'.
    + rewrite Ht. unfold preprocess, mbind, Py_bind, dict_display.
      step_alloc l1 F1. unfold getitem, dict_getitem.
      rewrite lookup_insert_ne, Hl, Et by congruence. reflexivity.
Qed.


Lemma temperature_is_0_3 : is_nearest_binary64 3 10 temperature.
Proof. unfold is_nearest_binary64, temperature. simpl. lia. Qed.

(** *** preprocess *)

(** C2, as amended.  For a row with a [text] field, [preprocess] returns a
    request whose messages are the system message with the fixed prompt
    followed by a single user message whose content is the row's text, and
    whose sampling parameters are temperature 0.3 and max_tokens 250. *)
Theorem preprocess_request (h : heap) l d text :
  h !! l = Some (ODict d) → d !! "text" = Some text →
  ∃ request h' sys usr,
    preprocess (PRef l) h = (Ok request, h') ∧
    messages_of h' request = Some [sys; usr] ∧
    is_message h' "system" (PStr system_prompt) sys ∧
    is_message h' "user" text usr ∧
    sampling_params_of h' request =
      Some {[ "temperature" := PFloat temperature; "max_tokens" := PInt 250 ]} ∧
    is_nearest_binary64 3 10 temperature.
Proof.
  intros Hl Ht.
  destruct (preprocess_run h l d text Hl Ht) as (l1 & l2 & l3 & l4 & l5 & Hfr & Hrun).
  destruct (request_heap_lookups h text _ _ _ _ _ Hfr)
    as (H5 & H4 & H3 & H2 & H1 & _).
  eexists (PRef l5), _, (PRef l1), (PRef l2). split; [exact Hrun|].
  unfold messages_of, sampling_params_of, is_message. rewrite H5.
  split_and!.
  - by rewrite lookup_insert_eq, H3.
  - by exists l1.
  - by exists l2.
  - rewrite lookup_insert_ne, lookup_singleton_eq, H4 by done. reflexivity.
  - apply temperature_is_0_3.
Qed.

Lemma preprocess_request_witness :
  ∃ request h' sys usr,
    preprocess (PRef 1%positive) Examples.text_store = (Ok request, h') ∧
    messages_of h' request = Some [sys; usr] ∧
    is_message h' "system" (PStr system_prompt) sys ∧
    is_message h' "user" (PStr Examples.cats) usr ∧
    sampling_params_of h' request =
      Some {[ "temperature" := PFloat temperature; "max_tokens" := PInt 250 ]} ∧
    is_nearest_binary64 3 10 temperature.
Proof.
  apply (preprocess_request Examples.text_store 1%positive Examples.text_fields);
    reflexivity.
Defined.

(** C2, as stated, fails: the messages of the request for the row
    [{"text": "Tell me about cats"}] are not a single user message. *)
Lemma preprocess_messages_not_single :
  ¬ ∃ request h' usr,
      preprocess (PRef 1%positive) Examples.text_store = (Ok request, h') ∧
      messages_of h' request = Some [usr] ∧
      is_message h' "user" (PStr Examples.cats) usr.
Proof.
  intros (request & h' & usr & Hrun & Hm & _).
  vm_compute in Hrun. injection Hrun as <- <-.
  vm_compute in Hm. discriminate.
Qed.

(** C9.  For a row without a [text] key, [preprocess] raises
    [KeyError('text')] and returns no request. *)
Theorem preprocess_missing_text (h : heap) l d :
  h !! l = Some (ODict d) → d !! "text" = None →
  ∃ h', preprocess (PRef l) h = (Raise (KeyError "text"), h') ∧ h ⊆ h'.
Proof.
  intros Hl Ht. exists (preprocess (PRef l) h).2.
  split; [|apply preprocess_frame].
  unfold preprocess, mbind, Py_bind, dict_display.
  step_alloc l1 F1. unfold getitem, dict_getitem.
  rewrite lookup_insert_ne, Hl, Ht by congruence. reflexivity.
Qed.

Lemma preprocess_missing_text_witness :
  ∃ h', preprocess (PRef 1%positive) Examples.prompt_store
        = (Raise (KeyError "text"), h') ∧ Examples.prompt_store ⊆ h'.
Proof.
  apply (preprocess_missing_text Examples.prompt_store 1%positive
           Examples.prompt_fields); reflexivity.
Defined.

(** C4.  Two calls of [preprocess] on rows of the same structure, each in
    a store of its own, end the same way: with the same exception, or with
    requests of the same structure (the one [request_structure] gives); and
    neither call changes an object that was in its store. *)
Theorem preprocess_deterministic (n : nat) (h1 h2 : heap) row1 row2 τ :
  snapshot n h1 row1 = Some τ → snapshot n h2 row2 = Some τ →
  observe (n + 2) (preprocess row1 h1) = observe (n + 2) (preprocess row2 h2) ∧
  observe (n + 2) (preprocess row1 h1) = Some (request_structure τ) ∧
  h1 ⊆ (preprocess row1 h1).2 ∧ h2 ⊆ (preprocess row2 h2).2.
Proof.
  intros Hs1 Hs2.
  rewrite (preprocess_observe n h1 row1 τ Hs1), (preprocess_observe n h2 row2 τ Hs2).
  repeat split; apply preprocess_frame.
Qed.

Lemma preprocess_deterministic_witness :
  observe 3 (preprocess (PRef 1%positive) Examples.text_store)
  = observe 3 (preprocess (PRef 2%positive) Examples.other_store) ∧
  observe 3 (preprocess (PRef 1%positive) Examples.text_store)
  = Some (request_structure Examples.text_structure) ∧
  Examples.text_store ⊆ (preprocess (PRef 1%positive) Examples.text_store).2 ∧
  Examples.other_store ⊆ (preprocess (PRef 2%positive) Examples.other_store).2.
Proof.
  apply (preprocess_deterministic 1 Examples.text_store Examples.other_store
           (PRef 1%positive) (PRef 2%positive) Examples.text_structure);
    vm_compute; reflexivity.
Defined.


(** *** postprocess *)

Lemma postprocess_run (h : heap) l d g :
  h !! l = Some (ODict d) → d !! "generated_text" = Some g → d !! "answer" = None →
  ∃ l', h !! l' = None ∧
        postprocess (PRef l) h = (Ok (PRef l'), <[l' := ODict (<["answer" := g]> d)]> h).
Proof.
  intros Hl Hg Ha.
  unfold postprocess, mbind, Py_bind, getitem, dict_getitem, dict_call.
  rewrite Hl, Hg, Hl. unfold duplicate_keyword. simpl.
  rewrite decide_False by (rewrite Ha; by intros [? ?]). simpl.
  step_alloc l' F. exists l'. split; [done|].
  unfold build_map. simpl.
  by rewrite <-insert_union_l, (left_id ∅ (∪)).
Qed.

Lemma postprocess_duplicate (h : heap) l d g :
  h !! l = Some (ODict d) → d !! "generated_text" = Some g → is_Some (d !! "answer") →
  postprocess (PRef l) h = (Raise (TypeError (DuplicateKeyword "answer")), h).
Proof.
  intros Hl Hg Ha.
  unfold postprocess, mbind, Py_bind, getitem, dict_getitem, dict_call.
  rewrite Hl, Hg, Hl. unfold duplicate_keyword. simpl.
  by rewrite decide_True.
Qed.

Lemma postprocess_no_generated_text (h : heap) l d :
  h !! l = Some (ODict d) → d !! "generated_text" = None →
  postprocess (PRef l) h = (Raise (KeyError "generated_text"), h).
Proof.
  intros Hl Hg. unfold postprocess, mbind, Py_bind, getitem, dict_getitem.
  by rewrite Hl, Hg.
Qed.

(** C1, as amended.  For a row with a [generated_text] field and no
    [answer] field, [postprocess] returns a new record that has every key of
    the row with the value the row has, and an [answer] key with the row's
    generated text. *)
Theorem postprocess_preserves_fields (h : heap) l d g :
  h !! l = Some (ODict d) → d !! "generated_text" = Some g → d !! "answer" = None →
  ∃ l' out h',
    postprocess (PRef l) h = (Ok (PRef l'), h') ∧
    h' !! l' = Some (ODict out) ∧
    (∀ k x, d !! k = Some x → out !! k = Some x) ∧
    out !! "answer" = Some g.
Proof.
  intros Hl Hg Ha.
  destruct (postprocess_run h l d g Hl Hg Ha) as (l' & F & Hrun).
  eexists l', _, _. split; [exact Hrun|]. split_and!.
  - apply lookup_insert_eq.
  - intros k x Hk. rewrite lookup_insert_ne; [done|]. intros <-. congruence.
  - apply lookup_insert_eq.
Qed.

Lemma postprocess_preserves_fields_witness :
  ∃ l' out h',
    postprocess (PRef 1%positive) Examples.engine_store = (Ok (PRef l'), h') ∧
    h' !! l' = Some (ODict out) ∧
    (∀ k x, Examples.engine_fields !! k = Some x → out !! k = Some x) ∧
    out !! "answer" = Some (PStr (Stub.echo Examples.cats)).
Proof.
  apply (postprocess_preserves_fields Examples.engine_store 1%positive
           Examples.engine_fields); reflexivity.
Defined.

(** X4.  For a row with a [generated_text] field and no [answer] field,
    the keys of the record [postprocess] returns are those of the row and
    [answer]: no column is dropped, and nothing else is added. *)
Lemma postprocess_keys (h : heap) l d g :
  h !! l = Some (ODict d) → d !! "generated_text" = Some g → d !! "answer" = None →
  ∃ l' out h',
    postprocess (PRef l) h = (Ok (PRef l'), h') ∧
    h' !! l' = Some (ODict out) ∧
    dom out = {[ "answer" ]} ∪ dom d.
Proof.
  intros Hl Hg Ha.
  destruct (postprocess_run h l d g Hl Hg Ha) as (l' & F & Hrun).
  eexists l', _, _. split; [exact Hrun|]. split.
  - apply lookup_insert_eq.
  - apply dom_insert_L.
Qed.

(** C1, as stated, fails: the row
    [{"generated_text": ..., "answer": "an earlier answer"}] has a
    [generated_text] field, and [postprocess] returns no record for it. *)
Lemma postprocess_answer_column_no_record :
  Examples.answered_store !! 1%positive = Some (ODict Examples.answered_fields) ∧
  is_Some (Examples.answered_fields !! "generated_text") ∧
  ¬ ∃ out h', postprocess (PRef 1%positive) Examples.answered_store = (Ok out, h').
Proof.
  split_and!; [reflexivity | by eexists |].
  intros (out & h' & Hrun). vm_compute in Hrun. discriminate.
Qed.

(** C5, as stated, fails: the row [{"answer": "an earlier answer"}] has an
    [answer] key, and the error [postprocess] raises for it is not the
    duplicate keyword argument of the merge: it is the [KeyError] of the
    lookup of [generated_text], which comes before the merge. *)
Lemma postprocess_answer_only_key_error :
  Examples.answer_only_store !! 1%positive = Some (ODict Examples.answer_only_fields) ∧
  is_Some (Examples.answer_only_fields !! "answer") ∧
  postprocess (PRef 1%positive) Examples.answer_only_store
  = (Raise (KeyError "generated_text"), Examples.answer_only_store) ∧
  postprocess (PRef 1%positive) Examples.answer_only_store
  ≠ (Raise (TypeError (DuplicateKeyword "answer")), Examples.answer_only_store).
Proof.
  assert (postprocess (PRef 1%positive) Examples.answer_only_store
          = (Raise (KeyError "generated_text"), Examples.answer_only_store)) as Hrun
    by (by eapply postprocess_no_generated_text).
  split_and!; [reflexivity | by eexists | done |].
  rewrite Hrun. discriminate.
Qed.

(** C5, as amended.  For a row that has an [answer] key, [postprocess]
    raises and returns no record, and the store is as it was: nothing is
    overridden.  When the row has its [generated_text], the error is the one
    of the merge, a duplicate keyword argument [answer]; when it has not, the
    error is the [KeyError] of the lookup of [generated_text], which comes
    first.  So a call that returns was given a row with no [answer] key. *)
Theorem postprocess_answer_key_raises (h : heap) l d :
  h !! l = Some (ODict d) →
  (is_Some (d !! "answer") →
     (∀ g, d !! "generated_text" = Some g →
           postprocess (PRef l) h = (Raise (TypeError (DuplicateKeyword "answer")), h)) ∧
     (d !! "generated_text" = None →
           postprocess (PRef l) h = (Raise (KeyError "generated_text"), h)) ∧
     (∃ e, postprocess (PRef l) h = (Raise e, h))) ∧
  (∀ out h', postprocess (PRef l) h = (Ok out, h') → d !! "answer" = None).
Proof.
  intros Hl.
  assert (is_Some (d !! "answer") → ∃ e, postprocess (PRef l) h = (Raise e, h)) as Hraise.
  { intros Ha. destruct (d !! "generated_text") as [g|] eqn:Hg.
    - eexists. by eapply postprocess_duplicate.
    - eexists. by eapply postprocess_no_generated_text. }
  split; [intros Ha; split_and!; [| |auto] |].
  - intros g Hg. by eapply postprocess_duplicate.
  - intros Hg. by eapply postprocess_no_generated_text.
  - intros out h' Hrun. destruct (d !! "answer") as [a|] eqn:Ha; [|done].
    destruct Hraise as [e He]; [by eexists|]. congruence.
Qed.

Lemma postprocess_answer_key_raises_witness :
  postprocess (PRef 1%positive) Examples.answered_store
  = (Raise (TypeError (DuplicateKeyword "answer")), Examples.answered_store) ∧
  postprocess (PRef 1%positive) Examples.answer_only_store
  = (Raise (KeyError "generated_text"), Examples.answer_only_store).
Proof.
  assert (is_Some (Examples.answered_fields !! "answer")) as Hanswered
    by (by eexists).
  assert (is_Some (Examples.answer_only_fields !! "answer")) as Honly
    by (by eexists).
  destruct (postprocess_answer_key_raises Examples.answered_store 1%positive
              Examples.answered_fields eq_refl) as [Hraises _].
  destruct (Hraises Hanswered) as (Hduplicate & _ & _).
  destruct (postprocess_answer_key_raises Examples.answer_only_store 1%positive
              Examples.answer_only_fields eq_refl) as [Hraises' _].
  destruct (Hraises' Honly) as (_ & Hkey & _).
  split.
  - eapply Hduplicate. reflexivity.
  - apply Hkey. reflexivity.
Defined.

(** C10.  For a row with a [generated_text] key and no [answer] key, the
    record [postprocess] returns has both keys, with the same value; it is a
    new object, and the row keeps its [generated_text]. *)
Theorem postprocess_duplicates_generated_text (h : heap) l d g :
  h !! l = Some (ODict d) → d !! "generated_text" = Some g → d !! "answer" = None →
  ∃ l' out h',
    postprocess (PRef l) h = (Ok (PRef l'), h') ∧
    h' !! l' = Some (ODict out) ∧
    out !! "generated_text" = Some g ∧
    out !! "answer" = Some g ∧
    l' ≠ l ∧ h' !! l = Some (ODict d).
Proof.
  intros Hl Hg Ha.
  destruct (postprocess_run h l d g Hl Hg Ha) as (l' & F & Hrun).
  assert (l' ≠ l) by congruence.
  eexists l', _, _. split; [exact Hrun|]. split_and!.
  - apply lookup_insert_eq.
  - by rewrite lookup_insert_ne.
  - apply lookup_insert_eq.
  - done.
  - by rewrite lookup_insert_ne.
Qed.

Lemma postprocess_duplicates_generated_text_witness :
  ∃ l' out h',
    postprocess (PRef 1%positive) Examples.engine_store = (Ok (PRef l'), h') ∧
    h' !! l' = Some (ODict out) ∧
    out !! "generated_text" = Some (PStr (Stub.echo Examples.cats)) ∧
    out !! "answer" = Some (PStr (Stub.echo Examples.cats)) ∧
    l' ≠ 1%positive ∧ h' !! 1%positive = Some (ODict Examples.engine_fields).
Proof.
  apply (postprocess_duplicates_generated_text Examples.engine_store 1%positive
           Examples.engine_fields); reflexivity.
Defined.

(** *** Further properties of the callbacks *)

(** X3.  A row without [generated_text] makes [postprocess] raise
    [KeyError('generated_text')], whether or not it has an [answer] key: the
    lookup comes before the merge.  No object is built. *)
Theorem postprocess_missing_generated_text (h : heap) l d :
  h !! l = Some (ODict d) → d !! "generated_text" = None →
  postprocess (PRef l) h = (Raise (KeyError "generated_text"), h).
Proof. apply postprocess_no_generated_text. Qed.

Lemma postprocess_missing_generated_text_witness :
  postprocess (PRef 1%positive) Examples.answer_only_store
  = (Raise (KeyError "generated_text"), Examples.answer_only_store).
Proof.
  apply (postprocess_missing_generated_text Examples.answer_only_store 1%positive
           Examples.answer_only_fields); reflexivity.
Defined.

Lemma postprocess_keys_witness :
  ∃ l' out h',
    postprocess (PRef 1%positive) Examples.engine_store = (Ok (PRef l'), h') ∧
    h' !! l' = Some (ODict out) ∧
    dom out = {[ "answer" ]} ∪ dom Examples.engine_fields.
Proof.
  apply (postprocess_keys Examples.engine_store 1%positive Examples.engine_fields
           (PStr (Stub.echo Examples.cats))); reflexivity.
Defined.

(** X5.  [postprocess] cannot be applied to a record it returned: the
    record has an [answer] key, and the second call raises the duplicate
    keyword error. *)
Theorem postprocess_not_idempotent (h : heap) l d g :
  h !! l = Some (ODict d) → d !! "generated_text" = Some g → d !! "answer" = None →
  ∃ out h',
    postprocess (PRef l) h = (Ok out, h') ∧
    postprocess out h' = (Raise (TypeError (DuplicateKeyword "answer")), h').
Proof.
  intros Hl Hg Ha.
  destruct (postprocess_run h l d g Hl Hg Ha) as (l' & F & Hrun).
  eexists _, _. split; [exact Hrun|].
  eapply postprocess_duplicate.
  - apply lookup_insert_eq.
  - rewrite lookup_insert_ne by done. exact Hg.
  - rewrite lookup_insert_eq. by eexists.
Qed.

Lemma postprocess_not_idempotent_witness :
  ∃ out h',
    postprocess (PRef 1%positive) Examples.engine_store = (Ok out, h') ∧
    postprocess out h' = (Raise (TypeError (DuplicateKeyword "answer")), h').
Proof.
  apply (postprocess_not_idempotent Examples.engine_store 1%positive
           Examples.engine_fields (PStr (Stub.echo Examples.cats))); reflexivity.
Defined.

(** X6.  The request depends on the [text] of the row and on nothing else
    in it: two rows with the same text, whatever their other columns, give
    requests of the same structure. *)
Theorem preprocess_only_text (n : nat) (h1 h2 : heap) row1 row2 m1 m2 :
  snapshot n h1 row1 = Some (VDict m1) → snapshot n h2 row2 = Some (VDict m2) →
  m1 !! "text" = m2 !! "text" →
  observe (n + 2) (preprocess row1 h1) = observe (n + 2) (preprocess row2 h2).
Proof.
  intros Hs1 Hs2 Htext.
  rewrite (preprocess_observe n h1 row1 _ Hs1), (preprocess_observe n h2 row2 _ Hs2).
  simpl. by rewrite Htext.
Qed.

Lemma preprocess_only_text_witness :
  observe 3 (preprocess (PRef 1%positive) Examples.text_store)
  = observe 3 (preprocess (PRef 1%positive) Examples.engine_store).
Proof.
  apply (preprocess_only_text 1 Examples.text_store Examples.engine_store
           (PRef 1%positive) (PRef 1%positive)
           {[ "text" := VStr Examples.cats ]}
           {[ "text" := VStr Examples.cats; "prompt" := VStr Examples.cats;
              "generated_text" := VStr (Stub.echo Examples.cats) ]});
    vm_compute; reflexivity.
Defined.

(** X7.  Two calls of [preprocess] on the same row, one after the other in
    the same store, build ten objects at ten different addresses: the two
    requests, their message lists, their messages and their sampling
    parameters share no object, and the second call leaves the objects of the
    first as they are.  Only the text is held by both. *)
Theorem preprocess_twice_fresh (h : heap) l d text :
  h !! l = Some (ODict d) → d !! "text" = Some text →
  ∃ a1 a2 a3 a4 a5 b1 b2 b3 b4 b5,
    let h1 := request_heap h text a1 a2 a3 a4 a5 in
    let h2 := request_heap h1 text b1 b2 b3 b4 b5 in
    preprocess (PRef l) h = (Ok (PRef a5), h1) ∧
    preprocess (PRef l) h1 = (Ok (PRef b5), h2) ∧
    NoDup [a1; a2; a3; a4; a5; b1; b2; b3; b4; b5] ∧
    h1 ⊆ h2.
Proof.
  intros Hl Ht.
  destruct (preprocess_run h l d text Hl Ht) as (a1 & a2 & a3 & a4 & a5 & Hfa & Hrun1).
  destruct (request_heap_lookups h text _ _ _ _ _ Hfa)
    as (A5 & A4 & A3 & A2 & A1 & Hsub).
  pose proof (lookup_weaken _ _ _ _ Hl Hsub) as Hl1.
  destruct (preprocess_run _ l d text Hl1 Ht) as (b1 & b2 & b3 & b4 & b5 & Hfb & Hrun2).
  destruct (request_heap_lookups _ text _ _ _ _ _ Hfb) as (_ & _ & _ & _ & _ & Hsub2).
  exists a1, a2, a3, a4, a5, b1, b2, b3, b4, b5. simpl.
  split_and!; [done | done | | done].
  destruct Hfa as [Hnda _]. destruct Hfb as [Hndb Hfrb].
  change [a1; a2; a3; a4; a5; b1; b2; b3; b4; b5]
    with ([a1; a2; a3; a4; a5] ++ [b1; b2; b3; b4; b5])%list.
  apply NoDup_app. split_and!; [done | | done].
  intros x Ha Hb. rewrite Forall_forall in Hfrb. specialize (Hfrb x Hb).
  rewrite !elem_of_cons, elem_of_nil in Ha.
  destruct Ha as [->|[->|[->|[->|[->|[]]]]]]; congruence.
Qed.

Lemma preprocess_twice_fresh_witness :
  ∃ a1 a2 a3 a4 a5 b1 b2 b3 b4 b5,
    let h1 := request_heap Examples.text_store (PStr Examples.cats) a1 a2 a3 a4 a5 in
    let h2 := request_heap h1 (PStr Examples.cats) b1 b2 b3 b4 b5 in
    preprocess (PRef 1%positive) Examples.text_store = (Ok (PRef a5), h1) ∧
    preprocess (PRef 1%positive) h1 = (Ok (PRef b5), h2) ∧
    NoDup [a1; a2; a3; a4; a5; b1; b2; b3; b4; b5] ∧
    h1 ⊆ h2.
Proof.
  apply (preprocess_twice_fresh Examples.text_store 1%positive Examples.text_fields);
    reflexivity.
Defined.

End CallbackFacts.

Module ScriptFacts.
Import Python Script.
#[local] Open Scope list_scope.

Section WithRuntime.
Context `{rt : Runtime}.

Lemma run_stmts_app (a b : list (M unit)) st :
  run_stmts (a ++ b) st =
  match run_stmts a st with
  | (Ok _, st') => run_stmts b st'
  | (Raise e, st') => (Raise e, st')
  end.
Proof.
  revert st. induction a as [|s a IH]; intros st; [reflexivity|].
  simpl. unfold mbind, M_bind. destruct (s st) as [[[]|e] st1]; [apply IH | done].
Qed.

Ltac unfold_stmts :=
  unfold import_ray, import_version, import_llm, import_, assert_version, load,
    print_schema, count_rows, print_size, configure, build_pipeline,
    apply_pipeline, peek, print_outputs.

Ltac unfold_monad :=
  unfold mbind, mret, M_bind, M_ret, throw, lift, emit, var, assign.

Ltac case_call :=
  match goal with
  | |- context [import_module ?m ?ns] =>
      destruct (import_module m ns) as [[]|?e] eqn:?Himport
  | |- context [version_test] =>
      destruct version_test as [[|]|?e] eqn:?Hversion
  | |- context [read_text ?u] => destruct (read_text u) as [?d|?e] eqn:?Hcall
  | |- context [schema ?d] => destruct (schema d) as [?s|?e] eqn:?Hcall
  | |- context [count ?d] => destruct (count d) as [?n|?e] eqn:?Hcall
  | |- context [vLLMEngineProcessorConfig ?c] =>
      destruct (vLLMEngineProcessorConfig c) as [[]|?e] eqn:?Hcall
  | |- context [build_llm_processor ?c ?f ?g] =>
      destruct (build_llm_processor c f g) as [?p|?e] eqn:?Hcall
  | |- context [call_processor ?p ?d] =>
      destruct (call_processor p d) as [?d|?e] eqn:?Hcall
  | |- context [Script.take ?d ?n] =>
      destruct (Script.take d n) as [?rows|?e] eqn:?Hcall
  end; simpl.

Lemma print_output_cases o st :
  (∃ p g, print_output o st =
          (Ok (), {| globals := set_generated_text g
                                  (set_prompt p (set_output o (globals st)));
                     trace := trace st ++ [EPrint (LPrompt p); EPrint (LGenerated g)] |})) ∨
  (∃ e st', print_output o st = (Raise e, st') ∧ lookup_fails e ∧
            trace st' = trace st ∧ config (globals st') = config (globals st)).
Proof.
  unfold print_output. unfold_monad. simpl. unfold dict_getitem.
  destruct (o !! "prompt") as [p|]; simpl.
  2:{ right. eexists _, _. split_and!; [reflexivity | by left | done | done]. }
  destruct (o !! "generated_text") as [g|]; simpl.
  2:{ right. eexists _, _. split_and!; [reflexivity | by right | done | done]. }
  left. exists p, g. by rewrite <-app_assoc.
Qed.

(** The loop over the outputs prints, and stops at the first output that
    lacks one of the two keys. *)
Lemma print_loop rows st :
  ∃ prints,
    trace (for_each rows print_output st).2 = trace st ++ prints ∧
    Forall is_print prints ∧
    config (globals (for_each rows print_output st).2) = config (globals st) ∧
    ((for_each rows print_output st).1 = Ok () ∨
     ∃ e, (for_each rows print_output st).1 = Raise e ∧ lookup_fails e).
Proof.
  revert st. induction rows as [|o rows IH]; intros st.
  - exists []. simpl. rewrite app_nil_r. auto.
  - simpl. unfold mbind, M_bind.
    destruct (print_output_cases o st) as [(p & g & ->)|(e & st' & -> & He & Htr & Hcfg)].
    + match goal with |- context [for_each rows print_output ?st'] =>
        destruct (IH st') as (prints & Htr & Hpr & Hcfg & Hr) end.
      exists (EPrint (LPrompt p) :: EPrint (LGenerated g) :: prints).
      split_and!; [| by repeat constructor | done | done].
      rewrite Htr. simpl. by rewrite <-!app_assoc.
    + exists []. simpl. rewrite app_nil_r. split_and!; eauto.
Qed.

Lemma stages_cons (e : event) (t : list event) :
  stages (e :: t) = match stage_of e with
                    | Some s => s :: stages t
                    | None => stages t
                    end.
Proof. reflexivity. Qed.

Lemma forcing_calls_cons (e : event) (t : list event) :
  forcing_calls (e :: t) =
  if forces_evaluation e then e :: forcing_calls t else forcing_calls t.
Proof. reflexivity. Qed.

Lemma stages_prints (prints : list event) :
  Forall is_print prints → stages prints = [].
Proof. induction 1 as [|e prints He _ IH]; [done|]. by destruct e. Qed.

Lemma forcing_prints (prints : list event) :
  Forall is_print prints → forcing_calls prints = [].
Proof. induction 1 as [|e prints He _ IH]; [done|]. by destruct e. Qed.

Ltac exec_script :=
  unfold run, script, run_stmts; unfold_stmts; unfold_monad; simpl;
  repeat case_call;
  try match goal with
  | |- context [for_each ?rows print_output ?st] =>
      destruct (print_loop rows st) as (prints & Htrace & Hprints & Hconfig & Hloop);
      destruct (for_each rows print_output st) as [r st'] eqn:Hrun;
      cbn [fst snd trace globals] in *
  end.

Ltac exec_done :=
  try match goal with
      | r : result () |- _ => destruct r as [[]|?]; simpl in *
      end.

Ltac trace_done :=
  match goal with
  | Htr : trace _ = _, Hpr : Forall is_print ?prints |- _ =>
      rewrite ?Htr;
      repeat (rewrite stages_cons; cbn [stage_of]);
      repeat (rewrite forcing_calls_cons; cbn [forces_evaluation]);
      rewrite ?(stages_prints prints Hpr), ?(forcing_prints prints Hpr)
  end.

Lemma run_stages : stages (trace run.2) `prefix_of` all_stages.
Proof.
  exec_script; exec_done; try (by eexists).
  all: trace_done; by exists [].
Qed.

Lemma run_stages_complete : run.1 = Ok () → stages (trace run.2) = all_stages.
Proof. exec_script; exec_done; try done. intros _. by trace_done. Qed.

Lemma run_forcing_calls :
  forcing_calls (trace run.2) `prefix_of` [ECount; ETake peek_limit].
Proof.
  exec_script; exec_done; try (by eexists).
  all: trace_done; by exists [].
Qed.

Lemma run_forcing_calls_complete :
  run.1 = Ok () → forcing_calls (trace run.2) = [ECount; ETake peek_limit].
Proof. exec_script; exec_done; try done. intros _. by trace_done. Qed.

Ltac pick_disjunct :=
  solve [ eauto | left; pick_disjunct | right; pick_disjunct ].

Lemma version_test_raises e :
  version_test = Raise e → ∃ s, parse_version s = Raise e.
Proof.
  unfold version_test.
  destruct (parse_version ray__version__) as [v|e1] eqn:Hv; simpl;
    [|intros [= <-]; eauto].
  destruct (parse_version min_version_string) as [w|e2] eqn:Hw; simpl;
    [done | intros [= <-]; eauto].
Qed.

Lemma version_lower_test : version_lower ↔ version_test = Ok false.
Proof.
  unfold version_lower, version_test, min_version_string. split.
  - intros (v & w & -> & -> & Hlow). simpl. by rewrite Hlow.
  - destruct (parse_version ray__version__) as [v|e1]; simpl; [|done].
    destruct (parse_version "2.44.1") as [w|e2]; simpl; [|done].
    intros [= Hlow]. by exists v, w.
Qed.

(** Where a failure of a run comes from. *)
Lemma run_failure e :
  run.1 = Raise e →
  (imports_return ∧ version_test = Ok false ∧ e = AssertionError version_message) ∨
  runtime_raises e ∨ lookup_fails e.
Proof.
  unfold imports_return.
  exec_script; exec_done; try done; intros [= <-].
  1: destruct Hloop as [|(e' & [= <-] & He)]; [done | auto].
  all: try (left; by split_and!).
  all: right; left; unfold runtime_raises.
  all: try (right; left; by apply version_test_raises).
  all: pick_disjunct.
Qed.

Lemma run_version_low :
  imports_return → version_test = Ok false →
  run = (Raise (AssertionError version_message), state_after_imports).
Proof.
  intros (Hray & Hpackaging & Hllm) Hlow.
  unfold run, script, run_stmts. unfold_stmts. unfold_monad. simpl.
  rewrite Hray. simpl. rewrite Hpackaging. simpl. rewrite Hllm. simpl.
  by rewrite Hlow.
Qed.

(** With a version test that does not pass, the run ends before the first
    stage, whatever the imports do. *)
Lemma run_version_low_stops :
  version_test = Ok false →
  (∃ e, run.1 = Raise e) ∧ globals run.2 = no_globals ∧
  Forall is_import (trace run.2).
Proof.
  exec_script; exec_done; try done; intros _;
    split_and!; eauto; by repeat constructor.
Qed.

Lemma run_import_fails e :
  import_fails e →
  run.1 = Raise e ∧ globals run.2 = no_globals ∧ Forall is_import (trace run.2).
Proof.
  unfold run, script, run_stmts. unfold_stmts. unfold_monad. simpl.
  intros [e' Hray|e' Hray Hpackaging|e' Hray Hpackaging Hllm];
    rewrite Hray; simpl; rewrite ?Hpackaging; simpl; rewrite ?Hllm; simpl;
    split_and!; by repeat constructor.
Qed.

Lemma stages_imports (t : list event) :
  Forall is_import t → stages t = [].
Proof. induction 1 as [|e t He _ IH]; [done|]. by destruct e. Qed.

(** A stage is entered only when the imports have returned and the version
    test has passed. *)
Lemma run_stage_prelude s :
  s ∈ stages (trace run.2) → prelude_returns.
Proof.
  unfold prelude_returns, imports_return.
  exec_script; exec_done; try trace_done;
    try (unfold stages; simpl; rewrite ?elem_of_cons, ?elem_of_nil;
         intuition discriminate);
    intros _; by split_and!.
Qed.

(** The run when the prelude returns and a call into the runtime raises. *)
Lemma run_stage_fails s e :
  prelude_returns → stage_fails s e →
  run.1 = Raise e ∧ stages (trace run.2) = stages_upto s ∧
  forcing_calls (trace run.2) = forcing_upto s.
Proof.
  intros ((Hray & Hpackaging & Hllm) & Hv) Hfails.
  unfold run, script, run_stmts. unfold_stmts. unfold_monad. simpl.
  rewrite Hray. simpl. rewrite Hpackaging. simpl. rewrite Hllm. simpl.
  rewrite Hv. simpl.
  destruct Hfails;
    repeat match goal with
           | H : _ = Ok _ |- _ => rewrite H; clear H; simpl
           | H : _ = Raise _ |- _ => rewrite H; clear H; simpl
           end; done.
Qed.

(** The run when the prelude and every call into the runtime return. *)
Lemma run_calls_return d s n p d' rows :
  prelude_returns → calls_return d s n p d' rows →
  run = for_each rows print_output (state_before_loop d s n p d' rows).
Proof.
  intros ((Hray & Hpackaging & Hllm) & Hv)
    (Hread & Hschema & Hcount & Hconfig & Hbuild & Hcall & Htake).
  unfold run, script, run_stmts. unfold_stmts. unfold_monad. simpl.
  rewrite Hray. simpl. rewrite Hpackaging. simpl. rewrite Hllm. simpl.
  rewrite Hv. simpl. rewrite Hread. simpl. rewrite Hschema. simpl.
  rewrite Hcount. simpl. rewrite Hconfig. simpl. rewrite Hbuild. simpl.
  rewrite Hcall. simpl. rewrite Htake. simpl.
  match goal with
  | |- context [for_each rows print_output ?st] =>
      change st with (state_before_loop d s n p d' rows)
  end.
  by destruct (for_each rows print_output _) as [[[]|e] st'].
Qed.

(** The configuration that the trace shows is the one of the script. *)
Lemma run_config_events c :
  (ENewConfig c ∈ trace run.2 ∨ EBuildProcessor c ∈ trace run.2) → c = config_literal.
Proof.
  exec_script; exec_done;
    try match goal with Htr : trace _ = _ |- _ => rewrite Htr end;
    rewrite ?elem_of_cons, ?elem_of_nil; intros H;
    repeat match goal with
           | H : _ ∨ _ |- _ => destruct H as [H|H]
           | H : ENewConfig _ = ENewConfig _ |- _ => by injection H
           | H : EBuildProcessor _ = EBuildProcessor _ |- _ => by injection H
           | H : _ ∈ ?l, Hp : Forall is_print ?l |- _ =>
               rewrite Forall_forall in Hp; by apply Hp in H
           end; try done.
Qed.

(** *** Stages in a trace whose stages are in the fixed order *)

Lemma stages_elem (t : list event) s :
  s ∈ stages t ↔ ∃ e, e ∈ t ∧ stage_of e = Some s.
Proof. unfold stages. apply list_elem_of_omap. Qed.

Lemma stages_split (pre post : list event) e s :
  stage_of e = Some s → stages (pre ++ e :: post) = stages pre ++ s :: stages post.
Proof. intros He. unfold stages. rewrite omap_app. simpl. by rewrite He. Qed.

Lemma ordered_at_most_once (t : list event) s :
  stages t `prefix_of` all_stages → at_most_once s t.
Proof.
  intros [k Hk] pre e post -> He e' Hin He'.
  rewrite (stages_split _ _ _ _ He) in Hk.
  assert (NoDup (stages pre ++ s :: stages post)) as Hnd.
  { assert (NoDup all_stages) as Hall by (unfold all_stages; by repeat constructor;
      rewrite ?elem_of_cons, ?elem_of_nil; intuition discriminate).
    rewrite Hk in Hall. by apply NoDup_app in Hall as (? & _ & _). }
  apply NoDup_app in Hnd as (_ & Hpre & Hpost%NoDup_cons).
  destruct Hpost as [Hpost _].
  apply elem_of_app in Hin as [Hin|Hin].
  - apply (Hpre s); [apply stages_elem; eauto | by left].
  - apply Hpost, stages_elem. eauto.
Qed.

Lemma configure_first (t : list event) b :
  stages t `prefix_of` all_stages → b ∈ [Build; Apply; Consume] →
  occurs_before Configure b t.
Proof.
  intros [k Hk] Hb pre e post -> He.
  rewrite (stages_split _ _ _ _ He) in Hk.
  assert (Configure ∈ stages pre) as Hin.
  { unfold all_stages in Hk. rewrite !elem_of_cons, elem_of_nil in Hb.
    destruct (stages pre) as [|s1 [|s2 [|s3 [|s4 [|s5 [|s6 l]]]]]];
      simplify_eq/=; rewrite ?elem_of_cons; intuition congruence. }
  apply stages_elem in Hin as (e' & ? & ?). eauto.
Qed.

(** *** The global [config] *)

Lemma script_keeps_config : Forall keeps_config script.
Proof.
  unfold script. repeat apply Forall_cons_2; try apply Forall_nil_2; intros st.
  all: unfold_stmts; unfold_monad; simpl.
  all: repeat first
         [ match goal with
           | |- context [match ?x with Some _ => _ | None => _ end] =>
               destruct x eqn:?; simpl
           end
         | case_call ]; auto.
  match goal with
  | |- context [for_each ?rows print_output ?st0] =>
      destruct (print_loop rows st0) as (prints & _ & _ & Hconfig & _)
  end. by left.
Qed.

Lemma run_stmts_keeps_config (stmts : list (M unit)) :
  Forall keeps_config stmts → keeps_config (run_stmts stmts).
Proof.
  induction 1 as [|s stmts Hs _ IH]; intros st; simpl; [by left|].
  unfold mbind, M_bind. specialize (Hs st).
  destruct (s st) as [[[]|e] st1]; simpl in *; [|done].
  destruct (IH st1) as [->| ->]; auto.
Qed.

Lemma run_prefix_split (n m : nat) :
  (n ≤ m)%nat →
  run_prefix m = match run_prefix n with
                 | (Ok _, st) => run_stmts (skipn n (firstn m script)) st
                 | (Raise e, st) => (Raise e, st)
                 end.
Proof.
  intros Hnm. unfold run_prefix.
  rewrite <-(take_drop n (firstn m script)) at 1.
  rewrite take_take, Nat.min_l by done. apply run_stmts_app.
Qed.

Lemma run_prefix_config (n : nat) :
  config (globals (run_prefix n).2) = None ∨
  config (globals (run_prefix n).2) = Some config_literal.
Proof.
  unfold run_prefix.
  destruct (run_stmts_keeps_config (firstn n script)
              (Forall_take _ n _ script_keeps_config) initial_state) as [H|H];
    rewrite H; auto.
Qed.

Lemma run_prefix_config_stable (n m : nat) c :
  (n ≤ m)%nat → config (globals (run_prefix n).2) = Some c →
  c = config_literal ∧ config (globals (run_prefix m).2) = Some c.
Proof.
  intros Hnm Hc.
  assert (c = config_literal) as ->
    by (destruct (run_prefix_config n) as [H|H]; congruence).
  split; [done|]. rewrite (run_prefix_split n m Hnm).
  destruct (run_prefix n) as [[[]|e] st]; simpl in *; [|done].
  destruct (run_stmts_keeps_config (skipn n (firstn m script))
              (Forall_drop _ n _ (Forall_take _ m _ script_keeps_config)) st)
    as [->|]; auto.
Qed.

Lemma run_prefix_raise_stable (n m : nat) e st :
  (n ≤ m)%nat → run_prefix n = (Raise e, st) → run_prefix m = (Raise e, st).
Proof. intros Hnm Hn. by rewrite (run_prefix_split n m Hnm), Hn. Qed.

(** *** The claims about the script *)

(** C3, as amended.  When the version of the runtime is lower than
    2.44.1, the run fails before any dataset I/O, configuration or pipeline
    construction: nothing but imports has happened and no global is bound.
    It fails with [AssertionError("Ray version must be at least 2.44.1")]
    when the three imports at the top of the file return, and with the error
    of the first import that raises otherwise.  And the script rejects
    nothing else: any other failure of a run is a failure of a call into the
    runtime or a missing key of an output record. *)
Theorem version_precondition :
  (version_lower →
     (∃ e, run.1 = Raise e) ∧ globals run.2 = no_globals ∧
     Forall is_import (trace run.2) ∧ stages (trace run.2) = []) ∧
  (version_lower → imports_return →
     run = (Raise (AssertionError "Ray version must be at least 2.44.1"),
            state_after_imports)) ∧
  (∀ e, import_fails e →
     run.1 = Raise e ∧ globals run.2 = no_globals ∧ stages (trace run.2) = []) ∧
  (∀ e, run.1 = Raise e →
     (imports_return ∧ version_lower ∧
      e = AssertionError "Ray version must be at least 2.44.1") ∨
     runtime_raises e ∨ lookup_fails e).
Proof.
  split_and!.
  - intros Hlow%version_lower_test.
    destruct (run_version_low_stops Hlow) as (He & Hg & Ht).
    split_and!; try done. by apply stages_imports.
  - intros Hlow%version_lower_test Himports. by apply run_version_low.
  - intros e He. destruct (run_import_fails e He) as (Hr & Hg & Ht).
    split_and!; try done. by apply stages_imports.
  - intros e He. destruct (run_failure e He) as [(Himports & Hlow & ->)|H];
      [left|by right].
    split_and!; try done. by apply version_lower_test.
Qed.

(** C7.  The engine configuration has concurrency 1 and batch size 64,
    both positive.  It is constructed at most once in a run, and before the
    pipeline is built, applied or consumed; it is the value handed to
    [build_llm_processor]; and once the global [config] is bound, it holds
    that same value after every later statement. *)
Theorem config_immutable :
  (concurrency config_literal = 1 ∧ batch_size config_literal = 64 ∧
   0 < concurrency config_literal ∧ 0 < batch_size config_literal)%Z ∧
  at_most_once Configure (trace run.2) ∧
  (∀ b, b ∈ [Build; Apply; Consume] → occurs_before Configure b (trace run.2)) ∧
  (∀ c, ENewConfig c ∈ trace run.2 ∨ EBuildProcessor c ∈ trace run.2 →
        c = config_literal) ∧
  (∀ (n m : nat) c, (n ≤ m)%nat → config (globals (run_prefix n).2) = Some c →
        c = config_literal ∧ config (globals (run_prefix m).2) = Some c) ∧
  run = run_prefix (length script).
Proof.
  split_and!; try done.
  - apply ordered_at_most_once, run_stages.
  - intros b. apply configure_first, run_stages.
  - apply run_config_events.
  - apply run_prefix_config_stable.
Qed.

(** C8.  The stages of a run are an initial part of load, count,
    configure, build, apply, consume, in this order, each entered at most
    once, and all of them when the run completes.  There is no branch, retry
    or recovery: once a statement raises, the run is over and no later
    statement runs; a stage is entered only after the imports and the version
    test; when a call into the runtime raises, the run ends with that very
    exception, having entered the stages up to the one of the call and no
    other; and when every call returns, the run is the loop over the outputs
    started in [state_before_loop], where the size is what the count of the
    dataset read returned and the outputs are what the peek of ten on the
    processed dataset returned.  The calls that force the evaluation of a
    dataset are the count and the peek of ten, in this order. *)
Theorem linear_control_flow :
  stages (trace run.2) `prefix_of` all_stages ∧
  (run.1 = Ok () → stages (trace run.2) = all_stages) ∧
  (∀ (n m : nat) e st, (n ≤ m)%nat →
     run_prefix n = (Raise e, st) → run_prefix m = (Raise e, st)) ∧
  run = run_prefix (length script) ∧
  forcing_calls (trace run.2) `prefix_of` [ECount; ETake 10] ∧
  (run.1 = Ok () → forcing_calls (trace run.2) = [ECount; ETake 10]) ∧
  (∀ s, s ∈ stages (trace run.2) → prelude_returns) ∧
  (prelude_returns → ∀ s e, stage_fails s e →
     run.1 = Raise e ∧ stages (trace run.2) = stages_upto s ∧
     forcing_calls (trace run.2) = forcing_upto s) ∧
  (prelude_returns → ∀ d s n p d' rows, calls_return d s n p d' rows →
     run = for_each rows print_output (state_before_loop d s n p d' rows)).
Proof.
  split_and!.
  - apply run_stages.
  - apply run_stages_complete.
  - apply run_prefix_raise_stable.
  - reflexivity.
  - apply run_forcing_calls.
  - apply run_forcing_calls_complete.
  - apply run_stage_prelude.
  - intros Hprelude s e. by apply run_stage_fails.
  - intros Hprelude d s n p d' rows. by apply run_calls_return.
Qed.

(** *** Further properties of the script *)

Lemma print_output_lines o st ls :
  lines_of o = Some ls →
  ∃ st', print_output o st = (Ok (), st') ∧ trace st' = trace st ++ ls.
Proof.
  unfold lines_of, print_output. unfold_monad. simpl. unfold dict_getitem.
  destruct (o !! "prompt") as [p|]; simpl; [|done].
  destruct (o !! "generated_text") as [g|]; simpl; [|done].
  intros [= <-]. eexists. split; [reflexivity|]. simpl. by rewrite <-app_assoc.
Qed.

Lemma print_output_missing o st :
  lines_of o = None →
  ∃ st', print_output o st = (Raise (KeyError (missing_key o)), st') ∧
         trace st' = trace st.
Proof.
  unfold lines_of, missing_key, print_output. unfold_monad. simpl.
  unfold dict_getitem.
  destruct (o !! "prompt") as [p|]; simpl; [|by eexists].
  destruct (o !! "generated_text") as [g|]; simpl; [done|by eexists].
Qed.

(** X1.  When every output has a [prompt] and a [generated_text], the loop
    returns, having printed for each output, in the order of the list, its
    prompt line and then its generated-text line, and nothing else. *)
Theorem print_loop_all (rows : list Row) : ∀ (ls : list (list event)) st,
  mapM lines_of rows = Some ls →
  ∃ st', for_each rows print_output st = (Ok (), st') ∧
         trace st' = trace st ++ concat ls.
Proof.
  induction rows as [|o rows IH]; intros ls st Hls.
  - injection Hls as <-. exists st. simpl. by rewrite app_nil_r.
  - simpl in Hls.
    destruct (lines_of o) as [l|] eqn:Ho; [|done]. simpl in Hls.
    destruct (mapM lines_of rows) as [ls'|] eqn:Hrows; [|done].
    injection Hls as <-.
    destruct (print_output_lines o st l Ho) as (st1 & Hrun & Htr).
    destruct (IH ls' st1 eq_refl) as (st' & Hloop & Htr').
    exists st'. simpl. unfold mbind, M_bind. rewrite Hrun. split; [done|].
    by rewrite Htr', Htr, <-app_assoc.
Qed.

(** X2.  The loop stops at the first output that lacks one of the two
    keys, with the [KeyError] of that key, [prompt] first.  It has printed the
    lines of the outputs before it and no line of this one, even when this one
    has its prompt; no later output is looked at. *)
Theorem print_loop_stops (good : list Row) : ∀ (bad : Row) (rest : list Row)
    (ls : list (list event)) st,
  mapM lines_of good = Some ls → lines_of bad = None →
  ∃ st', for_each (good ++ bad :: rest) print_output st
         = (Raise (KeyError (missing_key bad)), st') ∧
         trace st' = trace st ++ concat ls.
Proof.
  induction good as [|o good IH]; intros bad rest ls st Hls Hbad.
  - injection Hls as <-.
    destruct (print_output_missing bad st Hbad) as (st' & Hrun & Htr).
    exists st'. simpl. unfold mbind, M_bind. rewrite Hrun.
    by rewrite app_nil_r.
  - simpl in Hls.
    destruct (lines_of o) as [l|] eqn:Ho; [|done]. simpl in Hls.
    destruct (mapM lines_of good) as [ls'|] eqn:Hgood; [|done].
    injection Hls as <-.
    destruct (print_output_lines o st l Ho) as (st1 & Hrun & Htr).
    destruct (IH bad rest ls' st1 eq_refl Hbad) as (st' & Hloop & Htr').
    exists st'. simpl. unfold mbind, M_bind. rewrite Hrun. split; [done|].
    by rewrite Htr', Htr, <-app_assoc.
Qed.

(** X8.  When the imports return, the version test passes and every call
    into the runtime returns, the run is the loop over the outputs started in
    [state_before_loop]: the count printed is the count of the dataset as
    read, before the processor is applied; the peek of ten is made on the
    dataset the processor returned, to which [ds] is bound from then on; and
    the outputs are what the peek returned. *)
Theorem run_data_flow d s n p d' rows :
  imports_return → version_test = Ok true →
  read_text source_uri = Ok d → schema d = Ok s → count d = Ok n →
  vLLMEngineProcessorConfig config_literal = Ok () →
  build_llm_processor config_literal Callbacks.preprocess Callbacks.postprocess
    = Ok p →
  call_processor p d = Ok d' → Script.take d' 10 = Ok rows →
  run = for_each rows print_output (state_before_loop d s n p d' rows).
Proof.
  intros Himports Hv Hread Hschema Hcount Hconfig Hbuild Hcall Htake.
  apply run_calls_return; [by split | by split_and!].
Qed.

(** X10.  The engine is configured only in a run whose version test
    passed and in which the dataset was read, its schema obtained and its
    rows counted; the peek is made only in a run in which, moreover, the
    configuration was accepted, the processor built and the processor applied
    to the dataset that was read. *)
Theorem stages_need_success :
  (Configure ∈ stages (trace run.2) →
     version_test = Ok true ∧
     ∃ d s n, read_text source_uri = Ok d ∧ schema d = Ok s ∧ count d = Ok n) ∧
  (Consume ∈ stages (trace run.2) →
     ∃ d p d',
       read_text source_uri = Ok d ∧
       vLLMEngineProcessorConfig config_literal = Ok () ∧
       build_llm_processor config_literal Callbacks.preprocess
         Callbacks.postprocess = Ok p ∧
       call_processor p d = Ok d').
Proof.
  split.
  - exec_script; exec_done; try trace_done;
      try (unfold stages; simpl; rewrite ?elem_of_cons, ?elem_of_nil;
           intuition discriminate);
      intros _; eauto 10.
  - exec_script; exec_done; try trace_done;
      try (unfold stages; simpl; rewrite ?elem_of_cons, ?elem_of_nil;
           intuition discriminate);
      intros _; eauto 10.
Qed.

End WithRuntime.

(** C3, as stated, fails on a release that predates the [ray.data.llm]
    module: its version is lower than 2.44.1, and the run ends at the third
    import with the error of that import, not with the message of the version
    test. *)
Lemma version_low_import_error :
  @version_lower Examples.old_runtime ∧
  (@run Examples.old_runtime).1 = Raise (ImportError "ray.data.llm") ∧
  (@run Examples.old_runtime).1
  ≠ Raise (AssertionError "Ray version must be at least 2.44.1").
Proof.
  assert ((@run Examples.old_runtime).1 = Raise (ImportError "ray.data.llm")) as Hrun
    by (vm_compute; reflexivity).
  split_and!; [| done | rewrite Hrun; discriminate].
  exists [2; 9; 3]%nat, [2; 44; 1]%nat. split_and!; vm_compute; reflexivity.
Qed.

Lemma version_precondition_witness :
  (@run Examples.early_runtime
   = (Raise (AssertionError "Ray version must be at least 2.44.1"),
      @state_after_imports Examples.early_runtime)) ∧
  stages (trace (@run Examples.early_runtime).2) = [] ∧
  (@run Examples.old_runtime).1 = Raise (ImportError "ray.data.llm") ∧
  ((@imports_return Examples.early_runtime ∧ @version_lower Examples.early_runtime ∧
    AssertionError version_message
    = AssertionError "Ray version must be at least 2.44.1") ∨
   @runtime_raises Examples.early_runtime (AssertionError version_message) ∨
   lookup_fails (AssertionError version_message)).
Proof.
  assert (@version_lower Examples.early_runtime) as Hlower
    by (exists [2; 44; 0]%nat, [2; 44; 1]%nat; split_and!; vm_compute; reflexivity).
  destruct (@version_precondition Examples.early_runtime)
    as (Hstop & Hlow & _ & Hfail).
  destruct (@version_precondition Examples.old_runtime) as (_ & _ & Himport & _).
  split_and!.
  - apply (Hlow Hlower). split_and!; vm_compute; reflexivity.
  - apply (Hstop Hlower).
  - apply Himport. apply fails_import_llm; vm_compute; reflexivity.
  - apply Hfail. vm_compute; reflexivity.
Defined.

Lemma config_immutable_witness :
  @occurs_before Examples.good_runtime Configure Build
    (trace (@run Examples.good_runtime).2) ∧
  config_literal = config_literal ∧
  config (globals (@run_prefix Examples.good_runtime 13).2) = Some config_literal.
Proof.
  destruct (@config_immutable Examples.good_runtime) as (_ & _ & Hb & _ & Hn & _).
  split; [|apply (Hn 9%nat 13%nat); [lia | vm_compute; reflexivity]].
  apply Hb. apply list_elem_of_here.
Defined.

Lemma linear_control_flow_witness :
  stages (trace (@run Examples.good_runtime).2) = all_stages ∧
  @run_prefix Examples.old_runtime 13
  = (Raise (ImportError "ray.data.llm"), @state_after_imports Examples.old_runtime) ∧
  @forcing_calls Examples.good_runtime (trace (@run Examples.good_runtime).2)
  = [ECount; ETake 10] ∧
  @prelude_returns Examples.good_runtime ∧
  ((@run Stub.offline_runtime).1 = Raise Stub.offline ∧
   stages (trace (@run Stub.offline_runtime).2) = [Load] ∧
   @forcing_calls Stub.offline_runtime (trace (@run Stub.offline_runtime).2) = []) ∧
  @run Examples.good_runtime
  = for_each Examples.scenario_rows print_output
      (@state_before_loop Examples.good_runtime Examples.scenario_dataset
         ["text"] 3%nat Examples.scenario_processor Examples.scenario_processed
         Examples.scenario_rows).
Proof.
  destruct (@linear_control_flow Examples.good_runtime)
    as (_ & Hall & _ & _ & _ & Hforce & Hprelude & _ & Hflow).
  destruct (@linear_control_flow Examples.old_runtime) as (_ & _ & Hstop & _).
  destruct (@linear_control_flow Stub.offline_runtime)
    as (_ & _ & _ & _ & _ & _ & _ & Hfails & _).
  assert (stages (trace (@run Examples.good_runtime).2) = all_stages) as Hstages
    by (apply Hall; vm_compute; reflexivity).
  assert (@prelude_returns Examples.good_runtime) as Hgood
    by (apply (Hprelude Load); rewrite Hstages; apply list_elem_of_here).
  split; [exact Hstages|].
  split; [apply (Hstop 3%nat 13%nat); [lia | reflexivity]|].
  split; [apply Hforce; vm_compute; reflexivity|].
  split; [exact Hgood|].
  split.
  - apply (Hfails (conj (conj eq_refl (conj eq_refl eq_refl)) eq_refl) Load).
    apply fails_read. reflexivity.
  - apply (Hflow Hgood). split_and!; try reflexivity; vm_compute; reflexivity.
Defined.

(** *** The end-to-end scenario on the stub runtime *)

Lemma stub_versions :
  Stub.parse min_version_string = Ok min_version ∧
  Stub.parse "2.9.3" = Ok [2; 9; 3]%nat ∧
  Stub.parse "10.0" = Ok [10; 0]%nat ∧
  Stub.parse "2.44.0rc1" = Raise (InvalidVersion "2.44.0rc1") ∧
  Stub.parse "2..1" = Raise (InvalidVersion "2..1") ∧
  Stub.parse "" = Raise (InvalidVersion "") ∧
  @version_test Examples.good_runtime = Ok true ∧
  @version_test Examples.early_runtime = Ok false ∧
  @version_test Examples.old_runtime = Ok false.
Proof. split_and!; vm_compute; reflexivity. Qed.

Lemma version_examples :
  version_ge [2; 44; 1]%nat min_version = true ∧
  version_ge [2; 44; 1; 0]%nat min_version = true ∧
  version_ge [3]%nat min_version = true ∧
  version_ge [2; 100]%nat min_version = true ∧
  version_ge [2; 44]%nat min_version = false ∧
  version_ge [2; 44; 0; 5]%nat min_version = false ∧
  version_ge [2; 9; 3]%nat min_version = false.
Proof. repeat split. Qed.

Lemma scenario_outputs :
  (@run Examples.good_runtime).1 = Ok () ∧
  outputs (globals (@run Examples.good_runtime).2)
  = Some ((λ line, {[ "text" := VStr line; "prompt" := VStr line;
                      "generated_text" := VStr (Stub.echo line);
                      "answer" := VStr (Stub.echo line) ]})
          <$> Stub.scenario_lines).
Proof. split; vm_compute; reflexivity. Qed.

(** *** Witnesses and the version threshold *)

Lemma print_loop_all_witness :
  ∃ st', for_each [Examples.full_output; Examples.full_output] print_output
           (@initial_state Examples.good_runtime) = (Ok (), st') ∧
         trace st' =
           trace (@initial_state Examples.good_runtime) ++
           concat [ [EPrint (LPrompt (VStr Examples.cats));
                     EPrint (LGenerated (VStr (Stub.echo Examples.cats)))];
                    [EPrint (LPrompt (VStr Examples.cats));
                     EPrint (LGenerated (VStr (Stub.echo Examples.cats)))] ].
Proof.
  apply (@print_loop_all Examples.good_runtime
           [Examples.full_output; Examples.full_output]).
  reflexivity.
Defined.

Lemma print_loop_stops_witness :
  ∃ st', for_each ([Examples.full_output] ++
                   Examples.output_without_text :: [Examples.full_output])
           print_output (@initial_state Examples.good_runtime)
         = (Raise (KeyError (@missing_key Examples.output_without_text)), st') ∧
         trace st' =
           trace (@initial_state Examples.good_runtime) ++
           concat [ [EPrint (LPrompt (VStr Examples.cats));
                     EPrint (LGenerated (VStr (Stub.echo Examples.cats)))] ].
Proof.
  apply (@print_loop_stops Examples.good_runtime [Examples.full_output]);
    reflexivity.
Defined.

Lemma run_data_flow_witness :
  @run Examples.good_runtime
  = for_each Examples.scenario_rows print_output
      (@state_before_loop Examples.good_runtime Examples.scenario_dataset
         ["text"] 3%nat Examples.scenario_processor Examples.scenario_processed
         Examples.scenario_rows).
Proof.
  apply (@run_data_flow Examples.good_runtime);
    first [ reflexivity | vm_compute; reflexivity
          | split_and!; vm_compute; reflexivity ].
Defined.

Lemma stages_need_success_witness :
  (@version_test Examples.good_runtime = Ok true ∧
   ∃ d s n, @read_text Examples.good_runtime source_uri = Ok d ∧
            @schema Examples.good_runtime d = Ok s ∧
            @count Examples.good_runtime d = Ok n) ∧
  (∃ d p d',
     @read_text Examples.good_runtime source_uri = Ok d ∧
     @vLLMEngineProcessorConfig Examples.good_runtime config_literal = Ok () ∧
     @build_llm_processor Examples.good_runtime config_literal
       Callbacks.preprocess Callbacks.postprocess = Ok p ∧
     @call_processor Examples.good_runtime p d = Ok d').
Proof.
  assert (stages (trace (@run Examples.good_runtime).2) = all_stages) as Hall
    by (vm_compute; reflexivity).
  destruct (@stages_need_success Examples.good_runtime) as [Hconf Hpeek].
  split.
  - apply Hconf. rewrite Hall. do 2 apply list_elem_of_further.
    apply list_elem_of_here.
  - apply Hpeek. rewrite Hall. do 5 apply list_elem_of_further.
    apply list_elem_of_here.
Defined.

(** X9.  A three-part version [a.b.c] passes the version test exactly when
    it is 2.44.1 or later: [a > 2], or [a = 2] and [b > 44], or [a = 2],
    [b = 44] and [c >= 1]. *)
Theorem version_threshold (a b c : nat) :
  version_ge [a; b; c] min_version = true ↔
  (2 < a ∨ (a = 2 ∧ (44 < b ∨ (b = 44 ∧ 1 ≤ c))))%nat.
Proof.
  unfold version_ge, version_compare, min_version.
  change (strip_trailing_zeros [2; 44; 1]%nat) with [2; 44; 1]%nat.
  assert (∀ x y : nat, Nat.compare x y = Eq ↔ x = y) as Heq
    by (intros; apply Nat.compare_eq_iff).
  assert (∀ x y : nat, Nat.compare x y = Lt ↔ (x < y)%nat) as Hlt
    by (intros; apply Nat.compare_lt_iff).
  assert (∀ x y : nat, Nat.compare x y = Gt ↔ (y < x)%nat) as Hgt
    by (intros; apply Nat.compare_gt_iff).
  destruct c as [|c], b as [|b], a as [|a];
    cbn -[Nat.compare];
    repeat match goal with
           | |- context [Nat.compare ?x ?y] =>
               let E := fresh "E" in
               destruct (Nat.compare x y) eqn:E;
               [apply Heq in E | apply Hlt in E | apply Hgt in E]
           end;
    split; intros; try done; try lia.
Qed.

End ScriptFacts.

(** ** The lazy sequence *)

Module LazySeqFacts.
Import Python LazySeq.
#[local] Open Scope list_scope.

Lemma take_forced {A} (limit : nat) : ∀ (s : lazy_seq A) rs,
  Forall2 (λ force r, force () = Ok r) (firstn limit s) rs →
  take limit s = (Ok rs, length rs).
Proof.
  induction limit as [|limit IH]; intros s rs Hrs.
  - simpl in Hrs. by inversion Hrs.
  - destruct s as [|force rest]; simpl in *; [by inversion Hrs|].
    inversion Hrs as [|? r ? rs' Hr Hrest]; subst.
    by rewrite Hr, (IH rest rs' Hrest).
Qed.

(** C6.  On a lazy sequence of more than ten elements whose first ten
    yield the records [rs], the peek with limit 10 returns exactly [rs],
    ten records, and raises nothing; it forces ten elements and no more,
    whatever forcing the others would cost or raise. *)
Theorem bounded_peek {A} (s : lazy_seq A) (rs : list A) :
  (10 < size s)%nat →
  Forall2 (λ force r, force () = Ok r) (firstn 10 s) rs →
  take 10 s = (Ok rs, 10%nat) ∧ length rs = 10%nat.
Proof.
  intros Hsize Hrs.
  assert (length rs = 10%nat) as Hlen.
  { apply Forall2_length in Hrs. rewrite length_take in Hrs.
    unfold size in Hsize. lia. }
  split; [|done]. rewrite <-Hlen at 2. by apply take_forced.
Qed.

Lemma bounded_peek_witness :
  take 10 Examples.eleven = (Ok (seq 0 10), 10%nat) ∧ length (seq 0 10) = 10%nat.
Proof.
  apply (bounded_peek Examples.eleven (seq 0 10)).
  - vm_compute. lia.
  - repeat constructor.
Defined.

(** The whole of that sequence cannot be computed. *)
Lemma eleven_not_materializable :
  (materialize Examples.eleven).1 = Raise (RuntimeFault "out of memory").
Proof. reflexivity. Qed.

End LazySeqFacts.
